(** * Profile-likelihood engines of gaussian_proc: a shallow embedding

    The development follows the two modules
    [gaussian_proc/_likelihood/_profile_likelihood.py] and
    [gaussian_proc/_likelihood/_double_profile_likelihood.py].

    Modelling conventions.
    - numpy scalars that the code inspects for special values ([log_eta],
      [eta], [sigma], [sigma0]) are values of [float]: a real number, one of
      the two infinities, or NaN.  Arithmetic on arrays (solves, products,
      traces, the likelihood value itself) is carried out over the reals;
      rounding is not modelled.
    - a Python exception is a value of [exn]; a function that can raise
      returns in the monad [M], which also threads the one piece of mutable
      state the engines touch: the [distance_scale] held by the covariance
      operator.
    - the covariance operator and the scipy optimizer are collaborators
      outside the two modules; they enter as records of functions. *)

From Stdlib Require Import String.
From Stdlib Require Import Reals Lra Lia Bool Arith List.
Import ListNotations.
Open Scope R_scope.

(** ** Python exceptions and the state-and-exception monad *)

Inductive exn : Type :=
| IndexError
| NameError (name : string)
| UnboundLocalError (name : string)
| ValueError (msg : string)
| TypeError
| LinAlgError.

Inductive result (A : Type) : Type :=
| Ok (a : A)
| Raise (e : exn).
Arguments Ok {A} a.
Arguments Raise {A} e.

Definition result_map {A B} (f : A -> B) (r : result A) : result B :=
  match r with
  | Ok a => Ok (f a)
  | Raise e => Raise e
  end.

(** ** numpy scalars *)

Module Np.

Inductive float : Type :=
| Fin (r : R)
| PInf
| NInf
| NaN.

Definition Rleb (x y : R) : bool := if Rle_dec x y then true else false.
Definition Rltb (x y : R) : bool := if Rlt_dec x y then true else false.
Definition Reqb (x y : R) : bool := if Req_dec_T x y then true else false.

(** [a <= b] and [a < b] on numpy scalars: any comparison with NaN is
    false. *)
Definition le (a b : float) : bool :=
  match a, b with
  | NaN, _ | _, NaN => false
  | NInf, _ => true
  | _, PInf => true
  | Fin x, Fin y => Rleb x y
  | PInf, _ => false
  | Fin _, NInf => false
  end.

Definition lt (a b : float) : bool :=
  match a, b with
  | NaN, _ | _, NaN => false
  | PInf, _ => false
  | _, NInf => false
  | Fin x, Fin y => Rltb x y
  | NInf, _ => true
  | Fin _, PInf => true
  end.

Definition eqb (a b : float) : bool :=
  match a, b with
  | Fin x, Fin y => Reqb x y
  | PInf, PInf => true
  | NInf, NInf => true
  | _, _ => false
  end.

Definition isneginf (a : float) : bool :=
  match a with NInf => true | _ => false end.

Definition isinf (a : float) : bool :=
  match a with PInf | NInf => true | _ => false end.

Definition abs (a : float) : float :=
  match a with
  | Fin r => Fin (Rabs r)
  | PInf | NInf => PInf
  | NaN => NaN
  end.

Definition neg (a : float) : float :=
  match a with
  | Fin r => Fin (- r)
  | PInf => NInf
  | NInf => PInf
  | NaN => NaN
  end.

(** [10.0 ** a] *)
Definition pow10 (a : float) : float :=
  match a with
  | Fin r => Fin (Rpower 10 r)
  | PInf => PInf
  | NInf => Fin 0
  | NaN => NaN
  end.

(** [numpy.log] and [numpy.log10] *)
Definition log (a : float) : float :=
  match a with
  | Fin r => if Rltb 0 r then Fin (ln r)
             else if Reqb r 0 then NInf else NaN
  | PInf => PInf
  | NInf | NaN => NaN
  end.

Definition log10 (a : float) : float :=
  match a with
  | Fin r => if Rltb 0 r then Fin (ln r / ln 10)
             else if Reqb r 0 then NInf else NaN
  | PInf => PInf
  | NInf | NaN => NaN
  end.

Definition sqrt (a : float) : float :=
  match a with
  | Fin r => if Rltb r 0 then NaN else Fin (R_sqrt.sqrt r)
  | PInf => PInf
  | NInf | NaN => NaN
  end.

Definition sign_of (r : R) : float -> float :=
  fun inf => if Rltb r 0 then neg inf else inf.

Definition mul (a b : float) : float :=
  match a, b with
  | NaN, _ | _, NaN => NaN
  | Fin x, Fin y => Fin (x * y)
  | Fin x, inf | inf, Fin x => if Reqb x 0 then NaN else sign_of x inf
  | PInf, PInf | NInf, NInf => PInf
  | PInf, NInf | NInf, PInf => NInf
  end.

Definition div (a b : float) : float :=
  match a, b with
  | NaN, _ | _, NaN => NaN
  | Fin x, Fin y =>
      if Reqb y 0
      then (if Reqb x 0 then NaN else sign_of x PInf)
      else Fin (x / y)
  | Fin _, _ => Fin 0
  | inf, Fin y => sign_of y inf
  | _, _ => NaN
  end.

(** [numpy.min([a, b])] and [numpy.max([a, b])]: NaN propagates. *)
Definition min2 (a b : float) : float :=
  match a, b with
  | NaN, _ | _, NaN => NaN
  | _, _ => if le a b then a else b
  end.

Definition max2 (a b : float) : float :=
  match a, b with
  | NaN, _ | _, NaN => NaN
  | _, _ => if le a b then b else a
  end.

End Np.

(** ** Dense linear algebra on lists (numpy arrays of rank one and two) *)

Module LinAlg.

Definition vector : Type := list R.
Definition matrix : Type := list vector.

(** [X.shape] *)
Definition shape (A : matrix) : nat * nat :=
  (length A, match A with [] => O | r :: _ => length r end).

Fixpoint dot (u v : vector) : R :=
  match u, v with
  | x :: u', y :: v' => x * y + dot u' v'
  | _, _ => 0
  end.

Fixpoint vsub (u v : vector) : vector :=
  match u, v with
  | x :: u', y :: v' => (x - y) :: vsub u' v'
  | _, _ => []
  end.

Definition col (j : nat) (A : matrix) : vector :=
  map (fun row => nth j row 0) A.

(** [A.T] *)
Definition transpose (A : matrix) : matrix :=
  match A with
  | [] => []
  | r :: _ => map (fun j => col j A) (seq 0 (length r))
  end.

(** [numpy.matmul] of a matrix with a rank-one array, and of two matrices *)
Definition matvec (A : matrix) (v : vector) : vector :=
  map (fun row => dot row v) A.

Definition matmul (A B : matrix) : matrix :=
  map (fun row => map (fun c => dot row c) (transpose B)) A.

Fixpoint trace_from (i : nat) (A : matrix) : R :=
  match A with
  | [] => 0
  | r :: A' => nth i r 0 + trace_from (S i) A'
  end.

(** [numpy.trace] *)
Definition trace (A : matrix) : R := trace_from 0 A.

Definition remove_nth {A : Type} (j : nat) (l : list A) : list A :=
  firstn j l ++ skipn (S j) l.

Fixpoint sum_seq (f : nat -> R) (start len : nat) : R :=
  match len with
  | O => 0
  | S len' => f start + sum_seq f (S start) len'
  end.

(** [numpy.linalg.det], by expansion along the first row; the determinant of
    the empty matrix is one. *)
Fixpoint det_rec (k : nat) (A : matrix) : R :=
  match k, A with
  | S k', r :: A' =>
      sum_seq (fun j => (-1) ^ j * nth j r 0
                        * det_rec k' (map (remove_nth j) A'))
              0 (length r)
  | _, _ => 1
  end.

Definition det (A : matrix) : R := det_rec (length A) A.

Definition minor (i j : nat) (A : matrix) : matrix :=
  map (remove_nth j) (remove_nth i A).

Definition is_square (A : matrix) : bool :=
  forallb (fun r => Nat.eqb (length r) (length A)) A.

(** [numpy.linalg.inv]: the adjugate over the determinant; a matrix that is
    not square, or is singular, raises [LinAlgError]. *)
Definition inverse (A : matrix) : matrix :=
  let n := length A in
  map (fun i =>
         map (fun j => (-1) ^ (i + j) * det (minor j i A) / det A)
             (seq 0 n))
      (seq 0 n).

Definition inv (A : matrix) : result matrix :=
  if negb (is_square A) then Raise LinAlgError
  else if Np.Reqb (det A) 0 then Raise LinAlgError
  else Ok (inverse A).

End LinAlg.
Import LinAlg.

(** ** The covariance operator (collaborator) and its mutable state *)

(** The only state the engines mutate is the length-scale vector held by the
    operator; [None] is Python's [None] (never set). *)
Definition dscale : Type := option (list Np.float).

(** [cov.mixed_cor]: the mixed correlation [Kn = K + eta I].  Its numerical
    methods are functions of the current length-scale and of their
    arguments. *)
Record MixedCorrelation : Type := {
  mc_solve : dscale -> Np.float -> matrix -> matrix;
  mc_solve_vec : dscale -> Np.float -> vector -> vector;
  mc_logdet : dscale -> Np.float -> R;
  mc_traceinv : dscale -> Np.float -> nat -> R
}.

(** [cov]: the covariance [S = sigma^2 K + sigma0^2 I], with access to its
    derivatives with respect to the length-scales named in [derivative]. *)
Record Covariance : Type := {
  mixed_cor : MixedCorrelation;
  cov_solve : dscale -> Np.float -> Np.float -> matrix -> matrix;
  cov_solve_vec : dscale -> Np.float -> Np.float -> vector -> vector;
  cov_get_matrix : dscale -> Np.float -> Np.float -> list nat -> matrix;
  cov_dot : dscale -> Np.float -> Np.float -> matrix -> list nat -> matrix;
  cov_dot_vec : dscale -> Np.float -> Np.float -> vector -> list nat -> vector
}.

(** Computations that read and write the operator state and may raise. *)
Definition M (A : Type) : Type := dscale -> result A * dscale.

Definition ret {A} (a : A) : M A := fun s => (Ok a, s).
Definition raise {A} (e : exn) : M A := fun s => (Raise e, s).
Definition bind {A B} (m : M A) (k : A -> M B) : M B :=
  fun s => match m s with
           | (Ok a, s') => k a s'
           | (Raise e, s') => (Raise e, s')
           end.
Definition lift {A} (r : result A) : M A := fun s => (r, s).

Declare Scope py_scope.
Delimit Scope py_scope with py.
Notation "x <- m ;; k" := (bind m (fun x => k))
  (at level 61, m at next level, right associativity) : py_scope.
Notation "m ;;; k" := (bind m (fun _ => k))
  (at level 61, right associativity) : py_scope.
Open Scope py_scope.

Definition set_distance_scale (d : list Np.float) : M unit :=
  fun _ => (Ok tt, Some d).
Definition get_distance_scale : M dscale :=
  fun s => (Ok s, s).

Definition solve (mc : MixedCorrelation) (eta : Np.float) (A : matrix)
  : M matrix := fun s => (Ok (mc_solve mc s eta A), s).
Definition solve_vec (mc : MixedCorrelation) (eta : Np.float) (v : vector)
  : M vector := fun s => (Ok (mc_solve_vec mc s eta v), s).
Definition logdet (mc : MixedCorrelation) (eta : Np.float) : M R :=
  fun s => (Ok (mc_logdet mc s eta), s).
Definition traceinv (mc : MixedCorrelation) (eta : Np.float) (exponent : nat)
  : M R := fun s => (Ok (mc_traceinv mc s eta exponent), s).

(** Arrays whose entries may be special values. *)
Definition fvector : Type := list Np.float.
Definition fmatrix : Type := list fvector.

Definition of_reals (A : matrix) : fmatrix := map (map Np.Fin) A.

Definition ftranspose (A : fmatrix) : fmatrix :=
  match A with
  | [] => []
  | r :: _ =>
      map (fun j => map (fun row => nth j row Np.NaN) A) (seq 0 (length r))
  end.

(** [numpy.block([[a, b], [c, d]])] *)
Fixpoint hstack {A : Type} (a b : list (list A)) : list (list A) :=
  match a, b with
  | r :: a', r' :: b' => (r ++ r') :: hstack a' b'
  | _, _ => []
  end.

Definition block {A : Type} (a b c d : list (list A)) : list (list A) :=
  hstack a b ++ hstack c d.

(** Item assignment.  [a[p] = v] on a rank-one array stores one entry; on a
    rank-two array it indexes the first axis and broadcasts [v] over row
    [p]; [a[p, q] = v] stores one entry.  An index outside the axis raises
    [IndexError]. *)
Definition setitem {A : Type} (a : list A) (p : nat) (v : A)
  : result (list A) :=
  if Nat.ltb p (length a)
  then Ok (firstn p a ++ v :: skipn (S p) a)
  else Raise IndexError.

Definition setitem_row {A : Type} (a : list (list A)) (p : nat) (v : A)
  : result (list (list A)) :=
  match nth_error a p with
  | Some row => Ok (firstn p a ++ map (fun _ => v) row :: skipn (S p) a)
  | None => Raise IndexError
  end.

Definition setitem2 {A : Type} (a : list (list A)) (p q : nat) (v : A)
  : result (list (list A)) :=
  match nth_error a p with
  | Some row =>
      match setitem row q v with
      | Ok row' => Ok (firstn p a ++ row' :: skipn (S p) a)
      | Raise e => Raise e
      end
  | None => Raise IndexError
  end.

(** [for i in range(len): acc = body i acc], starting at [start]. *)
Fixpoint for_range {A : Type} (start len : nat) (body : nat -> A -> M A)
    (acc : A) : M A :=
  match len with
  | O => ret acc
  | S len' => acc' <- body start acc ;; for_range (S start) len' body acc'
  end.

(** ** Hyperparameters: a numpy scalar or a rank-one array *)

Inductive hyperparam : Type :=
| Scalar (x : Np.float)
| Array (a : list Np.float).

Definition isscalar (h : hyperparam) : bool :=
  match h with Scalar _ => true | Array _ => false end.

(** [hyperparam.size] *)
Definition size (h : hyperparam) : nat :=
  match h with Scalar _ => 1%nat | Array a => length a end.

(** [hyperparam[1:]] of an array *)
Definition tail_of (h : hyperparam) : list Np.float :=
  match h with Scalar _ => [] | Array a => tl a end.

(** What [likelihood_der1_eta] and [likelihood_der2_eta] return: a Python
    float for a scalar hyperparameter, an array otherwise. *)
Inductive value : Type :=
| VScalar (x : R)
| VArray1 (a : vector)
| VArray2 (a : matrix).

(** The Python float held by a value of size one. *)
Definition item (v : value) : R :=
  match v with
  | VScalar x => x
  | VArray1 a => nth 0 a 0
  | VArray2 a => nth 0 (nth 0 a []) 0
  end.

(** ** Result records and collaborators of the two classes *)

(** The result dictionary, without its [time] entry (wall-clock and
    process time are not modelled). *)
Record Result : Type := {
  sigma : Np.float;
  sigma0 : Np.float;
  eta : Np.float;
  distance_scale : dscale;
  max_likelihood : option R;
  iter : nat
}.

(** The module [_root_finding] is imported by [_profile_likelihood.py] but is not part of
    the sources at hand; its two functions enter as parameters.
    [find_interval_with_sign_change f bracket num_trials] returns
    [(bracket_found, bracket, bracket_values)];
    [chandrupatla_method f bracket bracket_values eps_m eps_a maxiter]
    returns the root and the iteration count. *)
Record RootFinding : Type := {
  find_interval_with_sign_change :
    (Np.float -> M R) -> Np.float * Np.float -> nat ->
    M (bool * (Np.float * Np.float) * (R * R));
  chandrupatla_method :
    (Np.float -> M R) -> Np.float * Np.float -> R * R -> R -> R -> nat ->
    M (Np.float * nat)
}.

(** [scipy.optimize.minimize(fun, x0, method, tol, jac, hess)], a
    collaborator: it may call the three functions any number of times, in
    the monad, and returns [res.x], [res.fun] and [res.nit]. *)
Record OptimizeResult : Type := {
  res_x : list Np.float;
  res_fun : R;
  res_nit : nat
}.

Record Scipy : Type := {
  minimize :
    (hyperparam -> M R) -> list Np.float -> string -> R ->
    option (hyperparam -> M vector) -> option (hyperparam -> M fmatrix) ->
    M OptimizeResult
}.

(** ** [_profile_likelihood.py]: class [ProfileLikelihood] *)

Module ProfileLikelihood.

Definition max_eta : R := 1e16.
Definition min_eta : R := 1e-16.

(** The idiom that opens every function of the class:
    [log_eta = hyperparam] for a scalar, [hyperparam[0]] otherwise. *)
Definition get_log_eta (h : hyperparam) : result Np.float :=
  match h with
  | Scalar x => Ok x
  | Array [] => Raise IndexError
  | Array (x :: _) => Ok x
  end.

(** [eta = 0.0 if numpy.isneginf(log_eta) else 10.0**log_eta] *)
Definition to_eta (log_eta : Np.float) : Np.float :=
  if Np.isneginf log_eta then Np.Fin 0 else Np.pow10 log_eta.

(** [if (not numpy.isscalar(hyperparam)) and (hyperparam.size > 1):
       mixed_cor.set_distance_scale(numpy.abs(hyperparam[1:]))] *)
Definition set_distance_scale_from (h : hyperparam) : M unit :=
  if negb (isscalar h) && Nat.ltb 1 (size h)
  then set_distance_scale (map Np.abs (tail_of h))
  else ret tt.

(** [n - m] for [n, m = X.shape] *)
Definition dof (X : matrix) : R :=
  INR (fst (shape X)) - INR (snd (shape X)).

Definition find_optimal_sigma0 (z : vector) (X : matrix) : M R :=
  let B := matmul (transpose X) X in
  Binv <- lift (inv B) ;;
  let Xtz := matvec (transpose X) z in
  let v := matvec X (matvec Binv Xtz) in
  let sigma02 := dot z (vsub z v) / dof X in
  ret (sqrt sigma02).

Definition find_optimal_sigma (z : vector) (X : matrix)
    (mc : MixedCorrelation) (eta : Np.float) : M R :=
  Y <- solve mc eta X ;;
  w <- solve_vec mc eta z ;;
  let B := matmul (transpose X) Y in
  Binv <- lift (inv B) ;;
  let Ytz := matvec (transpose Y) z in
  let v := matvec Y (matvec Binv Ytz) in
  let sigma2 := dot z (vsub w v) / dof X in
  ret (sqrt sigma2).

Definition find_optimal_sigma_sigma0 (z : vector) (X : matrix)
    (mc : MixedCorrelation) (eta : Np.float) : M (Np.float * Np.float) :=
  if Np.lt (Np.Fin max_eta) (Np.abs eta) then
    sigma0 <- find_optimal_sigma0 z X ;;
    let sigma :=
      if Np.isinf eta then Np.Fin 0
      else Np.div (Np.Fin sigma0) (Np.sqrt eta) in
    ret (sigma, Np.Fin sigma0)
  else
    sigma <- find_optimal_sigma z X mc eta ;;
    let sigma0 :=
      if Np.lt (Np.abs eta) (Np.Fin min_eta) then Np.Fin 0
      else Np.mul (Np.sqrt eta) (Np.Fin sigma) in
    ret (Np.Fin sigma, sigma0).

Definition likelihood (z : vector) (X : matrix) (mc : MixedCorrelation)
    (sign_switch : bool) (h : hyperparam) : M R :=
  set_distance_scale_from h ;;;
  log_eta <- lift (get_log_eta h) ;;
  let eta := to_eta log_eta in
  lp <- (if Np.le (Np.Fin max_eta) (Np.abs eta) then
           let B := matmul (transpose X) X in
           Binv <- lift (inv B) ;;
           let logdet_Binv := ln (det Binv) in
           sigma0 <- find_optimal_sigma0 z X ;;
           ret (- 0.5 * dof X * ln (2 * PI)
                - dof X * ln sigma0 - 0.5 * logdet_Binv - 0.5 * dof X)
         else
           sigma <- find_optimal_sigma z X mc eta ;;
           logdet_Kn <- logdet mc eta ;;
           Y <- solve mc eta X ;;
           let XtKninvX := matmul (transpose X) Y in
           let logdet_XtKninvX := ln (det XtKninvX) in
           ret (- 0.5 * dof X * ln (2 * PI)
                - dof X * ln sigma - 0.5 * logdet_Kn
                - 0.5 * logdet_XtKninvX
                - 0.5 * dof X)) ;;
  ret (if sign_switch then - lp else lp).

Definition likelihood_der1_eta (z : vector) (X : matrix)
    (mc : MixedCorrelation) (h : hyperparam) : M value :=
  log_eta <- lift (get_log_eta h) ;;
  let eta := to_eta log_eta in
  set_distance_scale_from h ;;;
  Y <- solve mc eta X ;;
  w <- solve_vec mc eta z ;;
  let B := matmul (transpose X) Y in
  Binv <- lift (inv B) ;;
  let Ytz := matvec (transpose Y) z in
  let Binv_Ytz := matvec Binv Ytz in
  let Y_Binv_Ytz := matvec Y Binv_Ytz in
  let Mz := vsub w Y_Binv_Ytz in
  trace_Kninv <- traceinv mc eta 1 ;;
  let YtY := matmul (transpose Y) Y in
  let trace_BinvYtY := trace (matmul Binv YtY) in
  let trace_M := trace_Kninv - trace_BinvYtY in
  let zMz := dot z Mz in
  let zM2z := dot Mz Mz in
  let sigma2 := zMz / dof X in
  let dlp_deta := - 0.5 * (trace_M - zM2z / sigma2) in
  ret (if isscalar h then VScalar dlp_deta else VArray1 [dlp_deta]).

Definition likelihood_der2_eta (z : vector) (X : matrix)
    (mc : MixedCorrelation) (h : hyperparam) : M value :=
  log_eta <- lift (get_log_eta h) ;;
  let eta := to_eta log_eta in
  set_distance_scale_from h ;;;
  Y <- solve mc eta X ;;
  V <- solve mc eta Y ;;
  w <- solve_vec mc eta z ;;
  let B := matmul (transpose X) Y in
  Binv <- lift (inv B) ;;
  let Ytz := matvec (transpose Y) z in
  let Binv_Ytz := matvec Binv Ytz in
  let Y_Binv_Ytz := matvec Y Binv_Ytz in
  let Mz := vsub w Y_Binv_Ytz in
  let YtY := matmul (transpose Y) Y in
  let A := matmul Binv YtY in
  trace_Kn2inv <- traceinv mc eta 2 ;;
  let YtV := matmul (transpose Y) V in
  let C := matmul Binv YtV in
  let trace_C := trace C in
  let AA := matmul A A in
  let trace_AA := trace AA in
  let trace_M2 := trace_Kn2inv - 2 * trace_C + trace_AA in
  let YtMz := matvec (transpose Y) Mz in
  let Binv_YtMz := matvec Binv YtMz in
  let Y_Binv_YtMz := matvec Y Binv_YtMz in
  v <- solve_vec mc eta Mz ;;
  let MMz := vsub v Y_Binv_YtMz in
  let zMz := dot z Mz in
  let zM2z := dot Mz Mz in
  let zM3z := dot Mz MMz in
  let sigma2 := zMz / dof X in
  let d2lp_deta2 :=
    0.5 * (trace_M2 - 2 * zM3z / sigma2
           + zM2z ^ 2 / (dof X * sigma2 ^ 2)) in
  ret (if isscalar h then VScalar d2lp_deta2 else VArray2 [[d2lp_deta2]]).

(** The local variable [eta] of the branch without a bracket: it is bound
    only when both end values are positive or both are negative. *)
Definition degenerate_eta (dlp_deta_left dlp_deta_right d2lp_deta2_zero_eta : R)
  : option Np.float :=
  if Np.Rltb 0 dlp_deta_left && Np.Rltb 0 dlp_deta_right then
    Some (if Np.Rltb 0 d2lp_deta2_zero_eta then Np.Fin 0 else Np.PInf)
  else if Np.Rltb dlp_deta_left 0 && Np.Rltb dlp_deta_right 0 then
    Some (if Np.Rltb d2lp_deta2_zero_eta 0 then Np.Fin 0 else Np.PInf)
  else None.

Definition find_likelihood_der1_zeros (rf : RootFinding)
    (z : vector) (X : matrix) (mc : MixedCorrelation)
    (interval_eta : Np.float * Np.float)
    (tol : R) (max_iterations num_bracket_trials : nat) : M Result :=
  let log_eta_start := Np.log10 (fst interval_eta) in
  let log_eta_end := Np.log10 (snd interval_eta) in
  let likelihood_der1_eta_partial_function :=
    fun x => v <- likelihood_der1_eta z X mc (Scalar x) ;; ret (item v) in
  let bracket := (log_eta_start, log_eta_end) in
  found <- find_interval_with_sign_change rf
             likelihood_der1_eta_partial_function bracket
             num_bracket_trials ;;
  let '(bracket_found, bracket, bracket_values) := found in
  if bracket_found then
    res <- chandrupatla_method rf likelihood_der1_eta_partial_function
             bracket bracket_values tol tol max_iterations ;;
    let eta := Np.pow10 (fst res) in
    ss <- find_optimal_sigma_sigma0 z X mc eta ;;
    ret {| sigma := fst ss; sigma0 := snd ss; eta := eta;
           distance_scale := None; max_likelihood := None;
           iter := snd res |}
  else
    let dlp_deta_left := fst bracket_values in
    let dlp_deta_right := snd bracket_values in
    let eta_zero := Np.Fin 0 in
    d2 <- likelihood_der2_eta z X mc (Scalar eta_zero) ;;
    let d2lp_deta2_zero_eta := item d2 in
    match degenerate_eta dlp_deta_left dlp_deta_right d2lp_deta2_zero_eta
    with
    | None => raise (UnboundLocalError "eta")
    | Some eta =>
        if negb (Np.eqb eta (Np.Fin 0) || Np.isinf eta)
        then raise (ValueError "eta must be zero or inf at this point.")
        else
          ss <- find_optimal_sigma_sigma0 z X mc eta ;;
          ret {| sigma := fst ss; sigma0 := snd ss; eta := eta;
                 distance_scale := None; max_likelihood := None;
                 iter := O |}
    end.

(** [interval_eta] of the branch [optimization_method == 'chandrupatla']:
    [[numpy.min([1e-4, 10.0**log_eta_guess * 1e-2]),
      numpy.max([1e+3, 10.0**log_eta_guess * 1e+2])]] *)
Definition chandrupatla_interval (log_eta_guess : Np.float)
  : Np.float * Np.float :=
  let min_eta_guess :=
    Np.min2 (Np.Fin 1e-4) (Np.mul (Np.pow10 log_eta_guess) (Np.Fin 1e-2)) in
  let max_eta_guess :=
    Np.max2 (Np.Fin 1e3) (Np.mul (Np.pow10 log_eta_guess) (Np.Fin 1e2)) in
  (min_eta_guess, max_eta_guess).

(** Modelled from the spec: [M_dot] of [_likelihood_utilities], which is
    not among the sources.  The spec gives the projector
    [M = Sinv - Sinv X (Xt Sinv X)^(-1) Xt Sinv], never materialized and
    always applied through solves; with [Y = Sinv X] and
    [Binv = (Xt Y)^(-1)] that is [M z = Sinv z - Y Binv Yt z]. *)
Definition M_dot (cov : Covariance) (s : dscale) (Binv Y : matrix)
    (sigma sigma0 : Np.float) (z : vector) : vector :=
  let w := cov_solve_vec cov s sigma sigma0 z in
  vsub w (matvec Y (matvec Binv (matvec (transpose Y) z))).

(** [hyperparam[1:]]; a numpy scalar cannot be sliced. *)
Definition slice_from_1 (h : hyperparam) : result (list Np.float) :=
  match h with
  | Scalar _ => Raise IndexError
  | Array a => Ok (tl a)
  end.

Definition likelihood_der1_distance_scale (z : vector) (X : matrix)
    (cov : Covariance) (h : hyperparam) : M vector :=
  log_eta <- lift (get_log_eta h) ;;
  let eta := Np.pow10 log_eta in
  tail <- lift (slice_from_1 h) ;;
  let distance_scale := map Np.abs tail in
  set_distance_scale distance_scale ;;;
  let der1_distance_scale := repeat 0 (length distance_scale) in
  ss <- find_optimal_sigma_sigma0 z X (mixed_cor cov) eta ;;
  let '(sigma, sigma0) := ss in
  s <- get_distance_scale ;;
  let Y := cov_solve cov s sigma sigma0 X in
  let B := matmul (transpose X) Y in
  Binv <- lift (inv B) ;;
  let Mz := M_dot cov s Binv Y sigma sigma0 z in
  let S := cov_get_matrix cov s sigma sigma0 [] in
  Sinv <- lift (inv S) ;;
  for_range 0 (length distance_scale)
    (fun p der1_distance_scale =>
       let SpMz := cov_dot_vec cov s sigma sigma0 Mz [p] in
       let zMSpMz := dot Mz SpMz in
       let Sp := cov_get_matrix cov s sigma sigma0 [p] in
       let SpSinv := matmul Sp Sinv in
       let trace_SpSinv := trace SpSinv in
       let SpY := cov_dot cov s sigma sigma0 Y [p] in
       let YtSpY := matmul (transpose Y) SpY in
       let BinvYtSpY := matmul Binv YtSpY in
       let trace_BinvYtSpY := trace BinvYtSpY in
       let trace_SpM := trace_SpSinv - trace_BinvYtSpY in
       lift (setitem der1_distance_scale p
               (- 0.5 * trace_SpM + 0.5 * zMSpMz)))
    der1_distance_scale.

Definition likelihood_der2_distance_scale (z : vector) (X : matrix)
    (cov : Covariance) (h : hyperparam) : M matrix :=
  log_eta <- lift (get_log_eta h) ;;
  let eta := Np.pow10 log_eta in
  tail <- lift (slice_from_1 h) ;;
  let distance_scale := map Np.abs tail in
  set_distance_scale distance_scale ;;;
  let size := length distance_scale in
  let der2_distance_scale := repeat (repeat 0 size) size in
  ss <- find_optimal_sigma_sigma0 z X (mixed_cor cov) eta ;;
  let '(sigma, sigma0) := ss in
  s <- get_distance_scale ;;
  let Y := cov_solve cov s sigma sigma0 X in
  let B := matmul (transpose X) Y in
  Binv <- lift (inv B) ;;
  let Mz := M_dot cov s Binv Y sigma sigma0 z in
  let S := cov_get_matrix cov s sigma sigma0 [] in
  Sinv <- lift (inv S) ;;
  for_range 0 size
    (fun p der2 =>
       let SpMz := cov_dot_vec cov s sigma sigma0 Mz [p] in
       let MSpMz := M_dot cov s Binv Y sigma sigma0 SpMz in
       for_range 0 size
         (fun q der2 =>
            let SqMz :=
              if Nat.eqb p q then SpMz
              else cov_dot_vec cov s sigma sigma0 Mz [q] in
            let zMSqMSpMz := dot SqMz MSpMz in
            let SpqMz := cov_dot_vec cov s sigma sigma0 Mz [p; q] in
            let zMSpqMz := dot Mz SpqMz in
            let Spq := cov_get_matrix cov s sigma sigma0 [p; q] in
            let SpqSinv := matmul Spq Sinv in
            let trace_SpqSinv := trace SpqSinv in
            let SpqY := cov_dot cov s sigma sigma0 Y [p; q] in
            let YtSpqY := matmul (transpose Y) SpqY in
            let BinvYtSpqY := matmul Binv YtSpqY in
            let trace_BinvYtSpqY := trace BinvYtSpqY in
            let trace_SpqM := trace_SpqSinv - trace_BinvYtSpqY in
            let Sp := cov_get_matrix cov s sigma sigma0 [p] in
            let SpSinv := matmul Sp Sinv in
            let Sq := cov_get_matrix cov s sigma sigma0 [q] in
            let SqSinv := if Nat.eqb p q then SpSinv else matmul Sq Sinv in
            let SpSinvSqSinv := matmul SpSinv SqSinv in
            let trace_SpMSqM_1 := trace SpSinvSqSinv in
            let SpY := matmul Sp Y in
            let SqY := if Nat.eqb p q then SpY else matmul Sq Y in
            let SinvSqY := cov_solve cov s sigma sigma0 SqY in
            let YtSpSinvSqY := matmul (transpose SpY) SinvSqY in
            let C21 := matmul Binv YtSpSinvSqY in
            let C22 := matmul Binv (transpose YtSpSinvSqY) in
            let trace_SpMSqM_21 := trace C21 in
            let trace_SpMSqM_22 := trace C22 in
            let YtSpY := matmul (transpose Y) SpY in
            let YtSqY :=
              if Nat.eqb p q then YtSpY else matmul (transpose Y) SqY in
            let Dp := matmul Binv YtSpY in
            let Dq := if Nat.eqb p q then Dp else matmul Binv YtSqY in
            let D := matmul Dp Dq in
            let trace_SpMSqM_3 := trace D in
            let trace_SpMSqM :=
              trace_SpMSqM_1 - trace_SpMSqM_21
              - trace_SpMSqM_22 + trace_SpMSqM_3 in
            let local_der2_distance_scale :=
              - 0.5 * trace_SpqM + 0.5 * trace_SpMSqM
              - zMSqMSpMz + 0.5 * zMSpqMz in
            let MSqMz := M_dot cov s Binv Y sigma sigma0 SqMz in
            let dp_log_sigma2 := - dot z MSpMz / dof X in
            let dq_log_sigma2 := - dot z MSqMz / dof X in
            let v := local_der2_distance_scale
                     + 0.5 * dof X * dp_log_sigma2 * dq_log_sigma2 in
            der2 <- lift (setitem2 der2 p q v) ;;
            if negb (Nat.eqb p q) then lift (setitem2 der2 q p v)
            else ret der2)
         der2)
    der2_distance_scale.

(** What [likelihood_der2_mixed] has computed when it enters its loop. *)
Record mixed_setup : Type := {
  ms_state : dscale;
  ms_size : nat;
  ms_sigma : Np.float;
  ms_sigma0 : Np.float;
  ms_Y : matrix;
  ms_YtY : matrix;
  ms_V : matrix;
  ms_Binv : matrix;
  ms_Mz : vector;
  ms_MMz : vector;
  ms_Sinv2 : matrix
}.

(** Lines 513-548: everything before the loop over [p]. *)
Definition likelihood_der2_mixed_setup (z : vector) (X : matrix)
    (cov : Covariance) (h : hyperparam) : M mixed_setup :=
  log_eta <- lift (get_log_eta h) ;;
  let eta := Np.pow10 log_eta in
  tail <- lift (slice_from_1 h) ;;
  let distance_scale := map Np.abs tail in
  set_distance_scale distance_scale ;;;
  ss <- find_optimal_sigma_sigma0 z X (mixed_cor cov) eta ;;
  let '(sigma, sigma0) := ss in
  s <- get_distance_scale ;;
  let Y := cov_solve cov s sigma sigma0 X in
  let YtY := matmul (transpose Y) Y in
  let V := cov_solve cov s sigma sigma0 Y in
  let B := matmul (transpose X) Y in
  Binv <- lift (inv B) ;;
  let Mz := M_dot cov s Binv Y sigma sigma0 z in
  let MMz := M_dot cov s Binv Y sigma sigma0 Mz in
  let S := cov_get_matrix cov s sigma sigma0 [] in
  Sinv <- lift (inv S) ;;
  let Sinv2 := matmul Sinv Sinv in
  ret {| ms_state := s; ms_size := length distance_scale;
         ms_sigma := sigma; ms_sigma0 := sigma0;
         ms_Y := Y; ms_YtY := YtY; ms_V := V; ms_Binv := Binv;
         ms_Mz := Mz; ms_MMz := MMz; ms_Sinv2 := Sinv2 |}.

(** Lines 552-581: the body of the loop, ending in
    [der2_mixed[p] = sigma**2 * (0.5*trace_MSpM - zMSpMMz)]. *)
Definition likelihood_der2_mixed_step (cov : Covariance) (e : mixed_setup)
    (p : nat) (der2_mixed : fmatrix) : M fmatrix :=
  let s := ms_state e in
  let sigma := ms_sigma e in
  let sigma0 := ms_sigma0 e in
  let SpMz := cov_dot_vec cov s sigma sigma0 (ms_Mz e) [p] in
  let zMSpMMz := dot SpMz (ms_MMz e) in
  let Sp := cov_get_matrix cov s sigma sigma0 [p] in
  let SpSinv2 := matmul Sp (ms_Sinv2 e) in
  let trace_SpSinv2 := trace SpSinv2 in
  let SpY := cov_dot cov s sigma sigma0 (ms_Y e) [p] in
  let YtSpY := matmul (transpose (ms_Y e)) SpY in
  let VtSpY := matmul (transpose (ms_V e)) SpY in
  let C1 := matmul (ms_Binv e) VtSpY in
  let C2 := matmul (ms_Binv e) (transpose VtSpY) in
  let D1 := matmul (ms_Binv e) YtSpY in
  let D2 := matmul (ms_Binv e) (ms_YtY e) in
  let D := matmul D1 D2 in
  let trace_C1 := trace C1 in
  let trace_C2 := trace C2 in
  let trace_D := trace D in
  let trace_MSpM := trace_SpSinv2 - trace_C1 - trace_C2 + trace_D in
  lift (setitem_row der2_mixed p
          (Np.mul (Np.mul sigma sigma)
                  (Np.Fin (0.5 * trace_MSpM - zMSpMMz)))).

Definition likelihood_der2_mixed (z : vector) (X : matrix)
    (cov : Covariance) (h : hyperparam) : M fmatrix :=
  e <- likelihood_der2_mixed_setup z X cov h ;;
  let der2_mixed := [repeat (Np.Fin 0) (ms_size e)] in
  for_range 0 (ms_size e) (likelihood_der2_mixed_step cov e) der2_mixed.

(** A value as a rank-one, respectively rank-two, array. *)
Definition atleast_1d (v : value) : vector :=
  match v with
  | VScalar x => [x]
  | VArray1 a => a
  | VArray2 a => concat a
  end.

Definition atleast_2d (v : value) : matrix :=
  match v with
  | VScalar x => [[x]]
  | VArray1 a => [a]
  | VArray2 a => a
  end.

Definition likelihood_jacobian (z : vector) (X : matrix) (cov : Covariance)
    (sign_switch : bool) (h : hyperparam) : M vector :=
  der1_eta <- likelihood_der1_eta z X (mixed_cor cov) h ;;
  let jacobian := atleast_1d der1_eta in
  jacobian <-
    (if Nat.ltb 1 (size h) then
       der1_distance_scale <- likelihood_der1_distance_scale z X cov h ;;
       ret (jacobian ++ der1_distance_scale)
     else ret jacobian) ;;
  ret (if sign_switch then map Ropp jacobian else jacobian).

Definition likelihood_hessian (z : vector) (X : matrix) (cov : Covariance)
    (sign_switch : bool) (h : hyperparam) : M fmatrix :=
  der2_eta <- likelihood_der2_eta z X (mixed_cor cov) h ;;
  let hessian := of_reals (atleast_2d der2_eta) in
  hessian <-
    (if Nat.ltb 1 (size h) then
       der2_distance_scale <- likelihood_der2_distance_scale z X cov h ;;
       der2_mixed <- likelihood_der2_mixed z X cov h ;;
       ret (block hessian der2_mixed
                  (ftranspose der2_mixed) (of_reals der2_distance_scale))
     else ret hessian) ;;
  ret (if sign_switch then map (map Np.neg) hessian else hessian).

Definition maximize_likelihood (sp : Scipy) (rf : RootFinding)
    (z : vector) (X : matrix) (cov : Covariance) (tol : R)
    (hyperparam_guess : list Np.float) (optimization_method : string)
  : M Result :=
  if String.eqb optimization_method "chandrupatla" then
    (if Nat.ltb 1 (length hyperparam_guess) then
       let distance_scale_guess := tl hyperparam_guess in
       current <- get_distance_scale ;;
       match current with
       | None => set_distance_scale distance_scale_guess
       | Some _ => ret tt
       end
     else ret tt) ;;;
    log_eta_guess <- lift (match hyperparam_guess with
                           | [] => Raise IndexError
                           | g :: _ => Ok g
                           end) ;;
    let interval_eta := chandrupatla_interval log_eta_guess in
    result <- find_likelihood_der1_zeros rf z X (mixed_cor cov)
                interval_eta 1e-6 100 3 ;;
    lp <- likelihood z X (mixed_cor cov) false (Scalar (eta result)) ;;
    current <- get_distance_scale ;;
    ret {| sigma := sigma result; sigma0 := sigma0 result;
           eta := eta result; distance_scale := current;
           max_likelihood := Some lp; iter := iter result |}
  else
    let sign_switch := true in
    let likelihood_partial_func :=
      likelihood z X (mixed_cor cov) sign_switch in
    let jacobian_partial_func := likelihood_jacobian z X cov sign_switch in
    let hessian_partial_func := likelihood_hessian z X cov sign_switch in
    res <- minimize sp likelihood_partial_func hyperparam_guess
             optimization_method tol
             (Some jacobian_partial_func) (Some hessian_partial_func) ;;
    log_eta <- lift (match res_x res with
                     | [] => Raise IndexError
                     | x :: _ => Ok x
                     end) ;;
    let eta := to_eta log_eta in
    ss <- find_optimal_sigma_sigma0 z X (mixed_cor cov) eta ;;
    let max_lp := - res_fun res in
    distance_scale <-
      (if Nat.ltb 1 (length (res_x res))
       then ret (Some (map Np.abs (tl (res_x res))))
       else get_distance_scale) ;;
    ret {| sigma := fst ss; sigma0 := snd ss; eta := eta;
           distance_scale := distance_scale;
           max_likelihood := Some max_lp; iter := res_nit res |}.

(** [compute_bounds_der1_eta].  [scipy.linalg.eigh(K, eigvals_only=True,
    subset_by_index=[lo, hi])] is a collaborator, [eigh K lo hi]: the
    eigenvalues of [K] numbered [lo] to [hi] in ascending order; the code
    takes entry [0] of what it returns. *)
Definition compute_bounds_der1_eta
    (eigh : matrix -> Z -> Z -> result vector)
    (X K : matrix) (eta : R) : result (R * R) :=
  let n := fst (shape X) in
  match eigh K 0%Z 0%Z with
  | Raise e => Raise e
  | Ok [] => Raise IndexError
  | Ok (eigenvalue_smallest :: _) =>
      match eigh K (Z.of_nat n - 1)%Z (Z.of_nat n - 1)%Z with
      | Raise e => Raise e
      | Ok [] => Raise IndexError
      | Ok (eigenvalue_largest :: _) =>
          let dlp_deta_upper_bound :=
            0.5 * dof X * (1 / (eta + eigenvalue_smallest)
                           - 1 / (eta + eigenvalue_largest)) in
          let dlp_deta_lower_bound := - dlp_deta_upper_bound in
          Ok (dlp_deta_upper_bound, dlp_deta_lower_bound)
      end
  end.

End ProfileLikelihood.

(** ** Name resolution

    A name that a function body reads is looked up among the function's
    parameters and the locals already assigned, then among the names bound
    at module level; a name bound nowhere raises [NameError].  Only numbers
    are given a value here; every other object is opaque. *)

Inductive pyval : Type :=
| PFloat (x : Np.float)
| PObject.

Definition scope : Type := list (string * pyval).

Fixpoint lookup (name : string) (sc : scope) : option pyval :=
  match sc with
  | [] => None
  | (k, v) :: sc' => if String.eqb k name then Some v else lookup name sc'
  end.

Definition load_float (sc : scope) (name : string) : result Np.float :=
  match lookup name sc with
  | Some (PFloat x) => Ok x
  | Some PObject => Raise TypeError
  | None => Raise (NameError name)
  end.

Definition objects (names : list string) : scope :=
  map (fun k => (k, PObject)) names.

(** ** [_double_profile_likelihood.py]: class [DoubleProfileLikelihood] *)

Module DoubleProfileLikelihood.

(** The names the module binds: its imports and its one class.  (The star
    import of the plotting utilities is taken to bind the plotting names
    that the explicit import after it lists.) *)
Definition module_globals : scope :=
  objects ["time"; "numpy"; "scipy"; "partial"; "load_plot_settings";
           "save_plot"; "plt"; "mark_inset"; "InsetPosition"; "matplotlib";
           "ProfileLikelihood"; "DoubleProfileLikelihood"]%string.

Definition _find_optimal_eta (sp : Scipy)
    (rf : RootFinding)
    (z : vector) (X : matrix) (cov : Covariance)
    (distance_scale : list Np.float) (log_eta_guess : Np.float)
    (optimization_method : string) : M Np.float :=
  set_distance_scale distance_scale ;;;
  result <- ProfileLikelihood.maximize_likelihood sp rf z X cov 1e-3
              [log_eta_guess] optimization_method ;;
  ret (eta result).

(** [numpy.r_[log_eta, distance_scale]] with [log_eta = numpy.log(eta)] *)
Definition hyperparam_full (eta : Np.float) (distance_scale : list Np.float)
  : hyperparam :=
  let log_eta := Np.log eta in
  Array (log_eta :: distance_scale).

Definition likelihood (sp : Scipy)
    (rf : RootFinding)
    (z : vector) (X : matrix) (cov : Covariance) (sign_switch : bool)
    (log_eta_guess : Np.float) (hyperparam : list Np.float) : M R :=
  let distance_scale := map Np.abs hyperparam in
  set_distance_scale distance_scale ;;;
  eta <- _find_optimal_eta sp rf z X cov distance_scale log_eta_guess
           "Nelder-Mead" ;;
  ProfileLikelihood.likelihood z X (mixed_cor cov) sign_switch
    (hyperparam_full eta distance_scale).

Definition likelihood_jacobian (sp : Scipy)
    (rf : RootFinding)
    (z : vector) (X : matrix) (cov : Covariance) (sign_switch : bool)
    (log_eta_guess : Np.float) (hyperparam : list Np.float) : M vector :=
  let distance_scale := map Np.abs hyperparam in
  set_distance_scale distance_scale ;;;
  eta <- _find_optimal_eta sp rf z X cov distance_scale log_eta_guess
           "Nelder-Mead" ;;
  der1_distance_scale <-
    ProfileLikelihood.likelihood_der1_distance_scale z X cov
      (hyperparam_full eta distance_scale) ;;
  let jacobian := der1_distance_scale in
  ret (if sign_switch then map Ropp jacobian else jacobian).

(** The parameters of [likelihood_hessian] and the one local assigned
    before the call of [_find_optimal_eta], followed by the module's
    names. *)
Definition likelihood_hessian_scope : scope :=
  objects ["z"; "X"; "cov"; "sign_switch"; "hyperparam";
           "distance_scale"]%string
  ++ module_globals.

Definition likelihood_hessian (sp : Scipy)
    (rf : RootFinding)
    (z : vector) (X : matrix) (cov : Covariance) (sign_switch : bool)
    (hyperparam : list Np.float) : M matrix :=
  let distance_scale := map Np.abs hyperparam in
  set_distance_scale distance_scale ;;;
  log_eta_guess <- lift (load_float likelihood_hessian_scope
                           "log_eta_guess") ;;
  eta <- _find_optimal_eta sp rf z X cov distance_scale log_eta_guess
           "Nelder-Mead" ;;
  let hyperparam_full := hyperparam_full eta distance_scale in
  der2_distance_scale <-
    ProfileLikelihood.likelihood_der2_distance_scale z X cov
      (Array hyperparam) ;;
  let hessian := der2_distance_scale in
  ret hessian.

Definition maximize_likelihood (sp : Scipy)
    (rf : RootFinding)
    (z : vector) (X : matrix) (cov : Covariance) (tol : R)
    (hyperparam_guess : list Np.float) (optimization_method : string)
  : M Result :=
  let log_eta_guess := Np.Fin 1 in
  let sign_switch := true in
  let likelihood_partial_func := fun h =>
    likelihood sp rf z X cov sign_switch log_eta_guess
      (match h with Scalar x => [x] | Array a => a end) in
  let jacobian_partial_func := fun h =>
    likelihood_jacobian sp rf z X cov sign_switch log_eta_guess
      (match h with Scalar x => [x] | Array a => a end) in
  res <- minimize sp likelihood_partial_func
           hyperparam_guess optimization_method tol
           (Some jacobian_partial_func) None ;;
  let distance_scale := map Np.abs (res_x res) in
  eta <- _find_optimal_eta sp rf z X cov distance_scale log_eta_guess
           "Nelder-Mead" ;;
  ss <- ProfileLikelihood.find_optimal_sigma_sigma0 z X (mixed_cor cov)
          eta ;;
  let max_lp := - res_fun res in
  ret {| sigma := fst ss;
         sigma0 := snd ss;
         eta := eta;
         distance_scale := Some distance_scale;
         max_likelihood := Some max_lp;
         iter := res_nit res |}.

End DoubleProfileLikelihood.

(** ** A concrete operator: a kernel given in its eigenbasis

    Any symmetric kernel matrix is diagonal in an orthonormal basis, and the
    likelihood does not change when [z] and [X] are written in that basis.
    [diag_mixed_cor k] is the mixed correlation [diag k + eta I]; the
    kernel does not depend on the length-scale.  Outside finite [eta] the
    methods return zeros. *)

Module Example.

Fixpoint scale_rows (d : list R) (A : matrix) : matrix :=
  match d, A with
  | di :: d', row :: A' => map (fun x => x / di) row :: scale_rows d' A'
  | _, _ => []
  end.

Fixpoint scale_entries (d : list R) (v : vector) : vector :=
  match d, v with
  | di :: d', x :: v' => x / di :: scale_entries d' v'
  | _, _ => []
  end.

Definition shifted (k : list R) (e : R) : list R := map (fun ki => ki + e) k.

Definition diag_mixed_cor (k : list R) : MixedCorrelation := {|
  mc_solve := fun _ eta A =>
    match eta with
    | Np.Fin e => scale_rows (shifted k e) A
    | _ => map (map (fun _ => 0)) A
    end;
  mc_solve_vec := fun _ eta v =>
    match eta with
    | Np.Fin e => scale_entries (shifted k e) v
    | _ => map (fun _ => 0) v
    end;
  mc_logdet := fun _ eta =>
    match eta with
    | Np.Fin e => fold_right (fun d acc => ln d + acc) 0 (shifted k e)
    | _ => 0
    end;
  mc_traceinv := fun _ eta exponent =>
    match eta with
    | Np.Fin e =>
        fold_right (fun d acc => / d ^ exponent + acc) 0 (shifted k e)
    | _ => 0
    end
|}.

Definition real_part (a : Np.float) : R :=
  match a with Np.Fin r => r | _ => 0 end.

(** The diagonal of [S = sigma^2 diag k + sigma0^2 I]. *)
Definition cov_diag (k : list R) (sigma sigma0 : Np.float) : list R :=
  map (fun ki => real_part sigma ^ 2 * ki + real_part sigma0 ^ 2) k.

Fixpoint diag_matrix_from (i n : nat) (d : list R) : matrix :=
  match d with
  | [] => []
  | di :: d' =>
      map (fun j => if Nat.eqb i j then di else 0) (seq 0 n)
      :: diag_matrix_from (S i) n d'
  end.

Definition diag_matrix (d : list R) : matrix :=
  diag_matrix_from 0 (length d) d.

(** The covariance over [diag_mixed_cor k].  Its derivatives with respect
    to a length-scale vanish, because the kernel is constant in it. *)
Definition diag_cov (k : list R) : Covariance := {|
  mixed_cor := diag_mixed_cor k;
  cov_solve := fun _ sigma sigma0 A =>
    scale_rows (cov_diag k sigma sigma0) A;
  cov_solve_vec := fun _ sigma sigma0 v =>
    scale_entries (cov_diag k sigma sigma0) v;
  cov_get_matrix := fun _ sigma sigma0 derivative =>
    match derivative with
    | [] => diag_matrix (cov_diag k sigma sigma0)
    | _ => diag_matrix (map (fun _ => 0) k)
    end;
  cov_dot := fun _ sigma sigma0 A derivative =>
    match derivative with
    | [] => matmul (diag_matrix (cov_diag k sigma sigma0)) A
    | _ => map (map (fun _ => 0)) A
    end;
  cov_dot_vec := fun _ sigma sigma0 v derivative =>
    match derivative with
    | [] => matvec (diag_matrix (cov_diag k sigma sigma0)) v
    | _ => map (fun _ => 0) v
    end
|}.

(** Three observations, one regressor along the first eigenvector. *)
Definition k3 : list R := [1; / 4; 1].
Definition X3 : matrix := [[1]; [0]; [0]].
Definition z3 : vector := [0; 1; 2].

(** An optimizer that stops where it starts: it evaluates the objective at
    [x0] and returns [x0] after zero iterations. *)
Definition minimize_at_guess : Scipy := {|
  minimize := fun f x0 _ _ _ _ =>
    v <- f (Array x0) ;;
    ret {| res_x := x0; res_fun := v; res_nit := O |}
|}.

(** Modelled from the spec: [find_interval_with_sign_change] of
    [_root_finding], which is not among the sources, for [num_trials = 0]:
    "evaluate f at both ends; if the two values already have opposite
    signs, succeed immediately", and with no trial left, report that no
    sign change was found.  [chandrupatla_method] with no iteration left
    returns the lower end of the bracket. *)
Definition endpoint_bracketing : RootFinding := {|
  find_interval_with_sign_change := fun f bracket _ =>
    f_lo <- f (fst bracket) ;;
    f_hi <- f (snd bracket) ;;
    ret (Np.Rltb (f_lo * f_hi) 0, bracket, (f_lo, f_hi));
  chandrupatla_method := fun _ bracket _ _ _ _ => ret (fst bracket, O)
|}.

(** Closed forms on [k3], [X3], [z3], as functions of [eta = e]: the
    quadratic forms [z^T M z], [z^T M^2 z], [z^T M^3 z], the likelihood, and
    the values of the first- and second-derivative formulas. *)
Definition zMz3 (e : R) : R := 1 / (/ 4 + e) + 4 / (1 + e).
Definition zM2z3 (e : R) : R := 1 / (/ 4 + e) ^ 2 + 4 / (1 + e) ^ 2.
Definition zM3z3 (e : R) : R := 1 / (/ 4 + e) ^ 3 + 4 / (1 + e) ^ 3.

Definition lp3 (e : R) : R :=
  - ln (2 * PI) - ln (zMz3 e / 2) - / 2 * (ln (/ 4 + e) + ln (1 + e)) - 1.

Definition dlp3 (e : R) : R :=
  - 0.5 * (/ (/ 4 + e) + / (1 + e) - zM2z3 e / (zMz3 e / 2)).

Definition d2lp3 (e : R) : R :=
  0.5 * (/ (/ 4 + e) ^ 2 + / (1 + e) ^ 2 - 2 * zM3z3 e / (zMz3 e / 2)
         + zM2z3 e ^ 2 / (2 * (zMz3 e / 2) ^ 2)).

End Example.

(** The interval the specification states for the Chandrupatla branch:
    [[min(1e-4, 10^(2 g - 2)), max(1e3, 10^(2 g + 2))]]. *)
Definition stated_interval (g : R) : Np.float * Np.float :=
  (Np.Fin (Rmin 1e-4 (Rpower 10 (2 * g - 2))),
   Np.Fin (Rmax 1e3 (Rpower 10 (2 * g + 2)))).

(** The interval with the exponents the code computes:
    [[min(1e-4, 10^(g - 2)), max(1e3, 10^(g + 2))]]. *)
Definition decade_interval (g : R) : Np.float * Np.float :=
  (Np.Fin (Rmin 1e-4 (Rpower 10 (g - 2))),
   Np.Fin (Rmax 1e3 (Rpower 10 (g + 2)))).

(** The value a computation returns, zero if it raises. *)
Definition returned {A} (d : A) (r : result A * dscale) : A :=
  match fst r with Ok a => a | Raise _ => d end.

(** The ordinary-least-squares residual estimator on [(z, X)] as the
    specification writes it, for [X] of shape [(n, m)]:
    [sqrt (z^T (z - X (X^T X)^(-1) X^T z) / (n - m))]. *)
Definition ols_residual_estimator (z : vector) (X : matrix) : R :=
  let n := fst (shape X) in
  let m := snd (shape X) in
  let XtX_inverse := inverse (matmul (transpose X) X) in
  let fitted := matvec X (matvec XtX_inverse (matvec (transpose X) z)) in
  sqrt (dot z (vsub z fitted) / (INR n - INR m)).

(** The likelihood and the value of [likelihood_der1_eta] as real
    functions, for fixed data, operator and operator state: of [log_eta],
    the variable the code is called with, and of [eta]. *)
Definition likelihood_of_log_eta (z : vector) (X : matrix)
    (mc : MixedCorrelation) (s : dscale) (log_eta : R) : R :=
  returned 0
    (ProfileLikelihood.likelihood z X mc false (Scalar (Np.Fin log_eta)) s).

Definition likelihood_of_eta (z : vector) (X : matrix)
    (mc : MixedCorrelation) (s : dscale) (e : R) : R :=
  returned 0
    (ProfileLikelihood.likelihood z X mc false
       (Scalar (Np.log10 (Np.Fin e))) s).

Definition der1_eta_at (z : vector) (X : matrix)
    (mc : MixedCorrelation) (s : dscale) (log_eta : R) : R :=
  item (returned (VScalar 0)
          (ProfileLikelihood.likelihood_der1_eta z X mc
             (Scalar (Np.Fin log_eta)) s)).

(** The central finite difference of [f] at [x] with step [h]. *)
Definition central_difference (f : R -> R) (x h : R) : R :=
  (f (x + h) - f (x - h)) / (2 * h).

(** Vocabulary for the properties below. *)

(** [c * v] for a rank-one array. *)
Definition vscale (c : R) (v : vector) : vector := map (Rmult c) v.

(** Entry [(p, q)] of an array of rank two. *)
Definition entry (A : matrix) (p q : nat) : R := nth q (nth p A []) 0.
Definition fentry (A : fmatrix) (p q : nat) : Np.float :=
  nth q (nth p A []) Np.NaN.

(** An [n] by [n] array equal to its transpose. *)
Definition symmetric (n : nat) (A : matrix) : Prop :=
  length A = n
  /\ Forall (fun r => length r = n) A
  /\ forall p q, (p < n)%nat -> (q < n)%nat -> entry A p q = entry A q p.

(** A value of [log_eta] that decodes to [eta >= 1e16]. *)
Definition large_log_eta (x : Np.float) : Prop :=
  match x with
  | Np.Fin xi => 16 <= xi
  | Np.PInf => True
  | _ => False
  end.

(** An operator whose solve commutes with scaling the right-hand side. *)
Definition homogeneous_solve (mc : MixedCorrelation) : Prop :=
  forall s eta c v,
    mc_solve_vec mc s eta (vscale c v) = vscale c (mc_solve_vec mc s eta v).

(** A computation that leaves the operator state as it found it. *)
Definition preserves_state {A} (m : M A) : Prop :=
  forall s, snd (m s) = s.

(** * Properties *)

(** ** Elementary facts about numpy scalars *)

Lemma Rltb_true (x y : R) : x < y -> Np.Rltb x y = true.
Proof. intros H; unfold Np.Rltb; destruct (Rlt_dec x y); [reflexivity | contradiction]. Qed.

Lemma Rltb_false (x y : R) : y <= x -> Np.Rltb x y = false.
Proof. intros H; unfold Np.Rltb; destruct (Rlt_dec x y); [lra | reflexivity]. Qed.

Lemma Rleb_true (x y : R) : x <= y -> Np.Rleb x y = true.
Proof. intros H; unfold Np.Rleb; destruct (Rle_dec x y); [reflexivity | contradiction]. Qed.

Lemma Rleb_false (x y : R) : y < x -> Np.Rleb x y = false.
Proof. intros H; unfold Np.Rleb; destruct (Rle_dec x y); [lra | reflexivity]. Qed.

Lemma Reqb_true (x y : R) : x = y -> Np.Reqb x y = true.
Proof. intros H; unfold Np.Reqb; destruct (Req_dec_T x y); [reflexivity | contradiction]. Qed.

Lemma Reqb_false (x y : R) : x <> y -> Np.Reqb x y = false.
Proof. intros H; unfold Np.Reqb; destruct (Req_dec_T x y); [contradiction | reflexivity]. Qed.

Lemma Rpower_10_2 : Rpower 10 2 = 100.
Proof.
  replace 2 with (INR 2) by (simpl; lra).
  rewrite Rpower_pow by lra. simpl. lra.
Qed.

Lemma Rpower_10_shift_down (g : R) : Rpower 10 g * 1e-2 = Rpower 10 (g - 2).
Proof.
  unfold Rminus. rewrite Rpower_plus, Rpower_Ropp, Rpower_10_2. lra.
Qed.

Lemma Rpower_10_shift_up (g : R) : Rpower 10 g * 1e2 = Rpower 10 (g + 2).
Proof. rewrite Rpower_plus, Rpower_10_2. lra. Qed.

Lemma min2_Fin (a b : R) : Np.min2 (Np.Fin a) (Np.Fin b) = Np.Fin (Rmin a b).
Proof.
  unfold Np.min2, Np.le, Np.Rleb, Rmin.
  destruct (Rle_dec a b); reflexivity.
Qed.

Lemma max2_Fin (a b : R) : Np.max2 (Np.Fin a) (Np.Fin b) = Np.Fin (Rmax a b).
Proof.
  unfold Np.max2, Np.le, Np.Rleb, Rmax.
  destruct (Rle_dec a b); reflexivity.
Qed.

(** ** The search interval of the Chandrupatla branch *)

(** C3, as stated, fails: for the guess [log_eta = 1] the code hands over
    the upper end [max(1e3, 10^1 * 1e2) = 1e3], the stated interval has
    [max(1e3, 10^4) = 1e4]. *)
Lemma chandrupatla_interval_not_doubled :
  ProfileLikelihood.chandrupatla_interval (Np.Fin 1) <> stated_interval 1.
Proof.
  unfold ProfileLikelihood.chandrupatla_interval, stated_interval.
  cbn [Np.pow10 Np.mul]. rewrite min2_Fin, max2_Fin.
  rewrite Rpower_10_shift_up.
  intros H. injection H as _ H.
  replace (1 + 2) with (INR 3) in H by (simpl; lra).
  replace (2 * 1 + 2) with (INR 4) in H by (simpl; lra).
  rewrite !Rpower_pow in H by lra. simpl in H.
  unfold Rmax in H.
  destruct (Rle_dec 1e3 (10 * (10 * (10 * 1))));
    destruct (Rle_dec 1e3 (10 * (10 * (10 * (10 * 1))))); lra.
Qed.

(** C3, amended: for every finite guess [g] for [log_eta], the Chandrupatla
    branch of [maximize_likelihood] searches exactly the interval
    [[min(1e-4, 10^(g-2)), max(1e3, 10^(g+2))]]: that is the value of
    [interval_eta], and it is the interval passed to
    [find_likelihood_der1_zeros]. *)
Theorem chandrupatla_interval_decades (g : R) :
  ProfileLikelihood.chandrupatla_interval (Np.Fin g) = decade_interval g
  /\ forall sp rf z X cov tol s,
       ProfileLikelihood.maximize_likelihood sp rf z X cov tol [Np.Fin g]
         "chandrupatla" s
       = (result <- ProfileLikelihood.find_likelihood_der1_zeros rf z X
                      (mixed_cor cov) (decade_interval g) 1e-6 100 3 ;;
          lp <- ProfileLikelihood.likelihood z X (mixed_cor cov) false
                  (Scalar (eta result)) ;;
          current <- get_distance_scale ;;
          ret {| sigma := sigma result; sigma0 := sigma0 result;
                 eta := eta result; distance_scale := current;
                 max_likelihood := Some lp; iter := iter result |}) s.
Proof.
  assert (E : ProfileLikelihood.chandrupatla_interval (Np.Fin g)
              = decade_interval g).
  { unfold ProfileLikelihood.chandrupatla_interval, decade_interval.
    cbn [Np.pow10 Np.mul]. rewrite min2_Fin, max2_Fin.
    now rewrite Rpower_10_shift_down, Rpower_10_shift_up. }
  split; [exact E | intros].
  unfold ProfileLikelihood.maximize_likelihood.
  cbn [String.eqb Ascii.eqb Bool.eqb length Nat.ltb Nat.leb lift].
  unfold bind at 1 2. cbn [ret lift].
  rewrite E. reflexivity.
Qed.

(** ** Sign switch and repeatability of [likelihood] *)

(** One step of a computation in [M]: case analysis on the outcome of the
    first command that is still to run. *)
Ltac run_step :=
  match goal with
  | |- context [match ?m ?s with (_, _) => _ end] =>
      let r := fresh "r" in
      let s' := fresh "s" in
      let E := fresh "E" in
      destruct (m s) as [r s'] eqn:E; destruct r; cbn [fst snd result_map]
  end.

(** C5: with the same [z], [X], operator, operator state and
    hyperparameter, [likelihood] with [sign_switch = True] returns the
    negation of what it returns with [sign_switch = False] (and raises
    exactly when the other call raises, leaving the same state).  The
    hyperparameter is arbitrary, so every [eta >= 0] is covered, with
    [eta = 0] given as [log_eta = -inf]. *)
Theorem likelihood_sign_switch z X mc h s :
  ProfileLikelihood.likelihood z X mc true h s
  = (result_map Ropp (fst (ProfileLikelihood.likelihood z X mc false h s)),
     snd (ProfileLikelihood.likelihood z X mc false h s)).
Proof.
  unfold ProfileLikelihood.likelihood, bind.
  repeat run_step; try reflexivity.
  all: destruct (Np.le _ _); repeat run_step; reflexivity.
Qed.

Lemma preserves_ret {A} (a : A) : preserves_state (ret a).
Proof. intros s; reflexivity. Qed.

Lemma preserves_lift {A} (r : result A) : preserves_state (lift r).
Proof. intros s; reflexivity. Qed.

Lemma preserves_bind {A B} (m : M A) (k : A -> M B) :
  preserves_state m -> (forall a, preserves_state (k a)) ->
  preserves_state (bind m k).
Proof.
  intros Hm Hk s. unfold bind.
  specialize (Hm s). destruct (m s) as [[a | e] s']; cbn in *; subst.
  - apply Hk.
  - reflexivity.
Qed.

Lemma preserves_solve mc eta A : preserves_state (solve mc eta A).
Proof. intros s; reflexivity. Qed.

Lemma preserves_solve_vec mc eta v : preserves_state (solve_vec mc eta v).
Proof. intros s; reflexivity. Qed.

Lemma preserves_logdet mc eta : preserves_state (logdet mc eta).
Proof. intros s; reflexivity. Qed.

Lemma preserves_traceinv mc eta p : preserves_state (traceinv mc eta p).
Proof. intros s; reflexivity. Qed.

Lemma preserves_get_distance_scale : preserves_state get_distance_scale.
Proof. intros s; reflexivity. Qed.

Create HintDb preserves.
#[local] Hint Resolve preserves_ret preserves_lift preserves_solve
  preserves_solve_vec preserves_logdet preserves_traceinv
  preserves_get_distance_scale : preserves.

Ltac preserves :=
  repeat first
    [ progress intros
    | apply preserves_bind
    | solve [auto with preserves]
    | match goal with
      | |- preserves_state (if ?b then _ else _) => destruct b
      | |- preserves_state (let '(_, _) := ?p in _) => destruct p
      end ].

Lemma preserves_find_optimal_sigma0 z X :
  preserves_state (ProfileLikelihood.find_optimal_sigma0 z X).
Proof. unfold ProfileLikelihood.find_optimal_sigma0. preserves. Qed.

Lemma preserves_find_optimal_sigma z X mc eta :
  preserves_state (ProfileLikelihood.find_optimal_sigma z X mc eta).
Proof. unfold ProfileLikelihood.find_optimal_sigma. preserves. Qed.

#[local] Hint Resolve preserves_find_optimal_sigma0
  preserves_find_optimal_sigma : preserves.

Lemma preserves_find_optimal_sigma_sigma0 z X mc eta :
  preserves_state (ProfileLikelihood.find_optimal_sigma_sigma0 z X mc eta).
Proof. unfold ProfileLikelihood.find_optimal_sigma_sigma0. preserves. Qed.

#[local] Hint Resolve preserves_find_optimal_sigma_sigma0 : preserves.

(** The only write of [likelihood] is its first command; running that
    command again on the state it produced changes nothing. *)
Lemma set_distance_scale_from_twice h s :
  ProfileLikelihood.set_distance_scale_from h
    (snd (ProfileLikelihood.set_distance_scale_from h s))
  = ProfileLikelihood.set_distance_scale_from h s.
Proof.
  unfold ProfileLikelihood.set_distance_scale_from.
  destruct (negb (isscalar h) && Nat.ltb 1 (size h)); reflexivity.
Qed.

Lemma set_distance_scale_from_ok h s :
  fst (ProfileLikelihood.set_distance_scale_from h s) = Ok tt.
Proof.
  unfold ProfileLikelihood.set_distance_scale_from.
  destruct (negb (isscalar h) && Nat.ltb 1 (size h)); reflexivity.
Qed.

(** C8: [likelihood] is repeatable.  A second call with the same [z], [X],
    [sign_switch] and hyperparameter, started in the operator state the
    first call left behind (nothing else touched the length-scale in
    between), returns the same result, or raises the same exception, and
    leaves the same state. *)
Theorem likelihood_repeatable z X mc sign_switch h s :
  ProfileLikelihood.likelihood z X mc sign_switch h
    (snd (ProfileLikelihood.likelihood z X mc sign_switch h s))
  = ProfileLikelihood.likelihood z X mc sign_switch h s.
Proof.
  unfold ProfileLikelihood.likelihood.
  set (rest := fun _ : unit => bind _ _).
  assert (P : forall u, preserves_state (rest u)).
  { intros u. subst rest. cbv beta. preserves. }
  unfold bind.
  pose proof (set_distance_scale_from_ok h s) as Hok.
  pose proof (set_distance_scale_from_twice h s) as Htwice.
  destruct (ProfileLikelihood.set_distance_scale_from h s) as [[[] | e] s1];
    cbn in Hok, Htwice; [ | discriminate ].
  rewrite (P tt s1), Htwice. reflexivity.
Qed.

(** ** The estimators of [sigma] and [sigma0] *)

Lemma is_square_gram (A B : matrix) :
  length (transpose B) = length A -> is_square (matmul A B) = true.
Proof.
  intros H. unfold is_square, matmul.
  apply forallb_forall. intros r Hr.
  apply in_map_iff in Hr as [row [<- _]].
  rewrite !length_map. rewrite H. apply Nat.eqb_refl.
Qed.

Lemma inv_gram (X Y : matrix) :
  length (transpose Y) = length (transpose X) ->
  det (matmul (transpose X) Y) <> 0 ->
  inv (matmul (transpose X) Y) = Ok (inverse (matmul (transpose X) Y)).
Proof.
  intros HL Hdet. unfold inv.
  rewrite is_square_gram by exact HL.
  rewrite Reqb_false by exact Hdet. reflexivity.
Qed.

(** C6: for an infinite [eta] and a design matrix of full column rank
    (the determinant of [X^T X] is not zero), [find_optimal_sigma_sigma0]
    returns [sigma = 0] and, as [sigma0], the ordinary-least-squares
    residual estimator [sqrt (z^T (z - X (X^T X)^(-1) X^T z) / (n - m))]; it
    does not consult the operator and leaves its state alone. *)
Theorem find_optimal_sigma_sigma0_infinite_eta z X mc eta s :
  Np.isinf eta = true ->
  det (matmul (transpose X) X) <> 0 ->
  ProfileLikelihood.find_optimal_sigma_sigma0 z X mc eta s
  = (Ok (Np.Fin 0, Np.Fin (ols_residual_estimator z X)), s).
Proof.
  intros Hinf Hrank.
  unfold ProfileLikelihood.find_optimal_sigma_sigma0.
  destruct eta; try discriminate; cbn [Np.abs Np.lt Np.isinf];
    unfold ProfileLikelihood.find_optimal_sigma0, bind, lift, ret;
    rewrite inv_gram by (reflexivity || exact Hrank); reflexivity.
Qed.

Lemma find_optimal_sigma_sigma0_infinite_eta_witness :
  Np.isinf Np.PInf = true
  /\ det (matmul (transpose Example.X3) Example.X3) <> 0
  /\ ProfileLikelihood.find_optimal_sigma_sigma0 Example.z3 Example.X3
       (Example.diag_mixed_cor Example.k3) Np.PInf None
     = (Ok (Np.Fin 0,
            Np.Fin (ols_residual_estimator Example.z3 Example.X3)), None).
Proof.
  assert (H : det (matmul (transpose Example.X3) Example.X3) <> 0).
  { cbv [det det_rec matmul transpose Example.X3 map seq length col nth dot
         sum_seq remove_nth firstn skipn app pow]. lra. }
  split; [reflexivity | split; [exact H | ]].
  apply (find_optimal_sigma_sigma0_infinite_eta Example.z3 Example.X3
           (Example.diag_mixed_cor Example.k3) Np.PInf None);
    [reflexivity | exact H].
Defined.

Lemma Rpower_10_16 : Rpower 10 16 = 1e16.
Proof.
  replace 16 with (INR 16) by (rewrite INR_IZR_INZ; reflexivity).
  rewrite Rpower_pow by lra. simpl. lra.
Qed.

(** The two tests for a large [eta], [numpy.abs(eta) >= max_eta] in
    [likelihood] and [numpy.abs(eta) > max_eta] in
    [find_optimal_sigma_sigma0], agree except where [|eta|] is exactly
    [max_eta]. *)
Lemma large_eta_tests (x : R) :
  Np.lt (Np.Fin ProfileLikelihood.max_eta) (Np.abs (Np.Fin x))
  = Np.le (Np.Fin ProfileLikelihood.max_eta) (Np.abs (Np.Fin x))
  <-> Rabs x <> ProfileLikelihood.max_eta.
Proof.
  cbn [Np.abs Np.lt Np.le]. unfold Np.Rltb, Np.Rleb.
  destruct (Rlt_dec _ _), (Rle_dec _ _); split; intros; try reflexivity;
    try discriminate; lra.
Qed.

(** C4, at the threshold: for [eta = 1e16] (that is [log_eta = 16])
    [likelihood] takes its large-[eta] branch, the closed form on the
    least-squares residual that never consults the operator, while
    [find_optimal_sigma_sigma0] takes its general branch: [sigma] comes from
    [find_optimal_sigma], through the operator's solves, and
    [sigma0 = sqrt(eta) * sigma]. *)
Theorem large_eta_threshold_1e16 z X mc s :
  ProfileLikelihood.to_eta (Np.Fin 16) = Np.Fin 1e16
  /\ (forall sign_switch,
        ProfileLikelihood.likelihood z X mc sign_switch (Scalar (Np.Fin 16)) s
        = (Binv <- lift (inv (matmul (transpose X) X)) ;;
           sigma0 <- ProfileLikelihood.find_optimal_sigma0 z X ;;
           let lp := - 0.5 * ProfileLikelihood.dof X * ln (2 * PI)
                     - ProfileLikelihood.dof X * ln sigma0
                     - 0.5 * ln (det Binv)
                     - 0.5 * ProfileLikelihood.dof X in
           ret (if sign_switch then - lp else lp)) s)
  /\ ProfileLikelihood.find_optimal_sigma_sigma0 z X mc (Np.Fin 1e16) s
     = (sigma <- ProfileLikelihood.find_optimal_sigma z X mc (Np.Fin 1e16) ;;
        ret (Np.Fin sigma, Np.mul (Np.sqrt (Np.Fin 1e16)) (Np.Fin sigma))) s.
Proof.
  assert (E : ProfileLikelihood.to_eta (Np.Fin 16) = Np.Fin 1e16).
  { unfold ProfileLikelihood.to_eta. cbn [Np.isneginf Np.pow10].
    now rewrite Rpower_10_16. }
  split; [exact E | split].
  - intros sign_switch. unfold ProfileLikelihood.likelihood.
    cbn [ProfileLikelihood.get_log_eta ProfileLikelihood.set_distance_scale_from
         isscalar negb andb].
    unfold bind at 1 2. cbn [ret lift]. rewrite E.
    cbn [Np.abs Np.le]. unfold ProfileLikelihood.max_eta.
    rewrite Rleb_true by (rewrite Rabs_pos_eq; lra).
    unfold bind, ret. cbv beta iota. repeat run_step; reflexivity.
  - unfold ProfileLikelihood.find_optimal_sigma_sigma0.
    cbn [Np.abs Np.lt]. unfold ProfileLikelihood.max_eta, ProfileLikelihood.min_eta.
    rewrite Rltb_false by (rewrite Rabs_pos_eq; lra).
    rewrite Rltb_false by (rewrite Rabs_pos_eq; lra).
    reflexivity.
Qed.

(** ** The Hessian of the doubly profiled likelihood *)

(** C10: every call of [DoubleProfileLikelihood.likelihood_hessian] raises
    [NameError] for the name [log_eta_guess]: the name is read when the
    arguments of [_find_optimal_eta] are evaluated, and it is neither a
    parameter, nor a local assigned before, nor a name of the module.  The
    length-scale has been set by then; no Hessian is returned. *)
Theorem double_likelihood_hessian_name_error sp rf z X cov sign_switch
    hyperparam s :
  DoubleProfileLikelihood.likelihood_hessian sp rf z X cov sign_switch
    hyperparam s
  = (Raise (NameError "log_eta_guess"), Some (map Np.abs hyperparam)).
Proof. reflexivity. Qed.

(** ** The mixed second derivative *)

Lemma likelihood_der2_mixed_setup_size z X cov a s e s' :
  ProfileLikelihood.likelihood_der2_mixed_setup z X cov (Array a) s
  = (Ok e, s') ->
  ProfileLikelihood.ms_size e = length (tl a).
Proof.
  unfold ProfileLikelihood.likelihood_der2_mixed_setup, bind, ret.
  cbn [ProfileLikelihood.slice_from_1 lift]. cbv beta iota.
  intros H.
  repeat match type of H with
         | context [match ?x with _ => _ end] =>
             destruct x eqn:?; try discriminate
         end.
  injection H as <- _. cbn [ProfileLikelihood.ms_size]. apply length_map.
Qed.

(** The array has one row; the second pass of the loop writes row 1. *)
Lemma likelihood_der2_mixed_loop cov e n row s :
  (2 <= n)%nat ->
  for_range 0 n (ProfileLikelihood.likelihood_der2_mixed_step cov e) [row] s
  = (Raise IndexError, s).
Proof.
  intros Hn. destruct n as [ | [ | n]]; try lia.
  cbn [for_range]. unfold bind at 1.
  unfold ProfileLikelihood.likelihood_der2_mixed_step at 1.
  cbn [setitem_row nth_error lift firstn skipn app].
  unfold bind at 1.
  unfold ProfileLikelihood.likelihood_der2_mixed_step at 1.
  cbn [setitem_row nth_error lift]. reflexivity.
Qed.

(** C9: when the distance-scale part [hyperparam[1:]] has two or more
    components, [likelihood_der2_mixed] does not return.  Once its
    preparation (everything before the loop) has succeeded, the loop raises
    [IndexError]: the array has shape [(1, size)] and the pass [p = 1]
    writes row 1.  Hence neither it nor [likelihood_hessian], which calls
    it, returns a value for such a hyperparameter. *)
Theorem likelihood_der2_mixed_index_error z X cov a :
  (2 <= length (tl a))%nat ->
  (forall s e s',
      ProfileLikelihood.likelihood_der2_mixed_setup z X cov (Array a) s
      = (Ok e, s') ->
      ProfileLikelihood.likelihood_der2_mixed z X cov (Array a) s
      = (Raise IndexError, s'))
  /\ (forall s r s',
        ProfileLikelihood.likelihood_der2_mixed z X cov (Array a) s
        <> (Ok r, s'))
  /\ (forall sign_switch s r s',
        ProfileLikelihood.likelihood_hessian z X cov sign_switch (Array a) s
        <> (Ok r, s')).
Proof.
  intros Hsize.
  assert (Hraise : forall s e s',
    ProfileLikelihood.likelihood_der2_mixed_setup z X cov (Array a) s
    = (Ok e, s') ->
    ProfileLikelihood.likelihood_der2_mixed z X cov (Array a) s
    = (Raise IndexError, s')).
  { intros s e s' Hsetup.
    unfold ProfileLikelihood.likelihood_der2_mixed, bind. rewrite Hsetup.
    apply likelihood_der2_mixed_loop.
    now rewrite (likelihood_der2_mixed_setup_size _ _ _ _ _ _ _ Hsetup). }
  assert (Hnever : forall s r s',
    ProfileLikelihood.likelihood_der2_mixed z X cov (Array a) s
    <> (Ok r, s')).
  { intros s r s' H.
    destruct (ProfileLikelihood.likelihood_der2_mixed_setup z X cov
                (Array a) s) as [[e | x] s1] eqn:Hsetup.
    - rewrite (Hraise _ _ _ Hsetup) in H. discriminate.
    - unfold ProfileLikelihood.likelihood_der2_mixed, bind in H.
      rewrite Hsetup in H. discriminate. }
  split; [exact Hraise | split; [exact Hnever | ]].
  intros sign_switch s r s'.
  unfold ProfileLikelihood.likelihood_hessian.
  assert (Hlen : Nat.ltb 1 (size (Array a)) = true).
  { apply Nat.ltb_lt. cbn [size]. destruct a; cbn in *; lia. }
  rewrite Hlen. unfold bind.
  repeat (run_step; try discriminate).
  exfalso. eapply Hnever. eassumption.
Qed.

(** ** Evaluation on the example operator *)

Import Example.

Notation "'mc3'" := (diag_mixed_cor k3).
Notation "'cov3'" := (diag_cov k3).

(** Unfolds the list programs of the embedding on concrete arrays and
    leaves the arithmetic on reals alone. *)
Ltac eval_lists :=
  cbv [bind ret lift solve solve_vec logdet traceinv
       diag_mixed_cor k3 X3 z3 scale_rows scale_entries shifted
       mc_solve mc_solve_vec mc_logdet mc_traceinv
       matmul matvec transpose col dot vsub trace trace_from
       map seq length nth firstn skipn app fold_right forallb
       Nat.eqb negb andb fst snd shape pow Nat.add Nat.ltb Nat.leb
       isscalar size item
       ProfileLikelihood.dof ProfileLikelihood.get_log_eta
       ProfileLikelihood.set_distance_scale_from].

Lemma inv_1x1 (b : R) : b <> 0 -> inv [[b]] = Ok [[/ b]].
Proof.
  intros Hb. unfold inv.
  cbv [is_square forallb length Nat.eqb negb andb det det_rec sum_seq pow
       nth map remove_nth firstn skipn app].
  rewrite Reqb_false by lra.
  cbv [inverse length seq map minor remove_nth firstn skipn app det det_rec
       Nat.add pow sum_seq nth].
  do 3 f_equal. field. lra.
Qed.

Lemma det_diag3 a b c :
  det [[a; 0; 0]; [0; b; 0]; [0; 0; c]] = a * b * c.
Proof.
  cbv [det det_rec length sum_seq nth map remove_nth firstn skipn app pow].
  ring.
Qed.

Lemma gram_X3 : det (matmul (transpose X3) X3) <> 0.
Proof.
  cbv [det det_rec matmul transpose X3 map seq length col nth dot
       sum_seq remove_nth firstn skipn app pow]. lra.
Qed.

Lemma gram3_nonzero e : 0 <= e ->
  1 * (1 / (1 + e)) + (0 * (0 / (/ 4 + e)) + (0 * (0 / (1 + e)) + 0)) <> 0.
Proof.
  intros He.
  replace (1 * (1 / (1 + e)) + (0 * (0 / (/ 4 + e)) + (0 * (0 / (1 + e)) + 0)))
    with (/ (1 + e)) by (field; lra).
  apply Rinv_neq_0_compat. lra.
Qed.

Lemma zMz3_pos e : 0 <= e -> 0 < zMz3 e.
Proof.
  intros He. unfold zMz3.
  assert (0 < / (/ 4 + e)) by (apply Rinv_0_lt_compat; lra).
  assert (0 < / (1 + e)) by (apply Rinv_0_lt_compat; lra).
  unfold Rdiv. lra.
Qed.

Lemma ln_sqrt_half x : 0 < x -> ln (sqrt x) = / 2 * ln x.
Proof. intros Hx. rewrite <- Rpower_sqrt by exact Hx. apply ln_Rpower. Qed.

Lemma ln_10_gt_2 : 2 < ln 10.
Proof.
  rewrite <- (ln_exp 2). apply ln_increasing; [apply exp_pos | ].
  replace 2 with (1 + 1) by lra. rewrite exp_plus.
  pose proof exp_le_3. pose proof (exp_pos 1). nra.
Qed.

Lemma Rpower_10_pos x : 0 < Rpower 10 x.
Proof. unfold Rpower. apply exp_pos. Qed.

Lemma Rpower_10_lt_1e16 xi : xi < 16 -> Rpower 10 xi < 1e16.
Proof. intros H. rewrite <- Rpower_10_16. apply Rpower_lt; lra. Qed.

Lemma Rpower_10_ln_10 : 100 < Rpower 10 (ln 10).
Proof.
  rewrite <- Rpower_10_2. apply Rpower_lt; [lra | apply ln_10_gt_2].
Qed.

(** Decoding [log_eta]. *)

Lemma to_eta_Fin xi :
  ProfileLikelihood.to_eta (Np.Fin xi) = Np.Fin (Rpower 10 xi).
Proof. reflexivity. Qed.

Lemma to_eta_NInf : ProfileLikelihood.to_eta Np.NInf = Np.Fin 0.
Proof. reflexivity. Qed.

Lemma to_eta_1 : ProfileLikelihood.to_eta (Np.Fin 1) = Np.Fin 10.
Proof. rewrite to_eta_Fin, Rpower_1 by lra. reflexivity. Qed.

Lemma log10_pow10 xi : Np.log10 (Np.Fin (Rpower 10 xi)) = Np.Fin xi.
Proof.
  cbn [Np.log10]. rewrite Rltb_true by apply Rpower_10_pos.
  f_equal. rewrite ln_Rpower. field. pose proof ln_10_gt_2. lra.
Qed.

Lemma to_eta_log10 e : 0 < e ->
  ProfileLikelihood.to_eta (Np.log10 (Np.Fin e)) = Np.Fin e.
Proof.
  intros He. cbn [Np.log10]. rewrite Rltb_true by exact He.
  unfold ProfileLikelihood.to_eta. cbn [Np.isneginf Np.pow10].
  f_equal. unfold Rpower.
  replace (ln e / ln 10 * ln 10) with (ln e)
    by (field; pose proof ln_10_gt_2; lra).
  apply exp_ln. exact He.
Qed.

(** [10 ** numpy.log(eta)] gives back [eta] only for [eta = 1]. *)
Lemma to_eta_log_fixed_point e : 0 < e ->
  ProfileLikelihood.to_eta (Np.log (Np.Fin e)) = Np.Fin e <-> e = 1.
Proof.
  intros He. cbn [Np.log]. rewrite Rltb_true by exact He.
  rewrite to_eta_Fin. pose proof ln_10_gt_2 as Hln. split.
  - intros H. injection H as H.
    apply (f_equal ln) in H. rewrite ln_Rpower in H.
    assert (H0 : ln e = 0) by nra.
    rewrite <- (exp_ln e He), H0. apply exp_0.
  - intros ->. rewrite ln_1, Rpower_O by lra. reflexivity.
Qed.

(** The engine's functions on the example, in closed form. *)

Lemma find_optimal_sigma_example e s : 0 <= e ->
  ProfileLikelihood.find_optimal_sigma z3 X3 mc3 (Np.Fin e) s
  = (Ok (sqrt (zMz3 e / 2)), s).
Proof.
  intros He. unfold ProfileLikelihood.find_optimal_sigma.
  eval_lists.
  rewrite inv_1x1 by (apply gram3_nonzero; lra).
  eval_lists. simpl INR. do 3 f_equal. unfold zMz3. field. lra.
Qed.

Lemma find_optimal_sigma_sigma0_example e s : 1e-16 <= e <= 1e16 ->
  ProfileLikelihood.find_optimal_sigma_sigma0 z3 X3 mc3 (Np.Fin e) s
  = (Ok (Np.Fin (sqrt (zMz3 e / 2)),
         Np.Fin (sqrt e * sqrt (zMz3 e / 2))), s).
Proof.
  intros He. unfold ProfileLikelihood.find_optimal_sigma_sigma0.
  cbn [Np.abs Np.lt].
  unfold ProfileLikelihood.max_eta, ProfileLikelihood.min_eta.
  rewrite !Rltb_false by (rewrite Rabs_pos_eq; lra).
  unfold bind. rewrite find_optimal_sigma_example by lra.
  cbn [Np.sqrt Np.mul ret]. rewrite Rltb_false by lra. reflexivity.
Qed.

Lemma likelihood_example x e s sign_switch :
  ProfileLikelihood.to_eta x = Np.Fin e -> 0 <= e < 1e16 ->
  ProfileLikelihood.likelihood z3 X3 mc3 sign_switch (Scalar x) s
  = (Ok (if sign_switch then - lp3 e else lp3 e), s).
Proof.
  intros Hx He. unfold ProfileLikelihood.likelihood.
  eval_lists. rewrite Hx. cbn [Np.abs Np.le].
  unfold ProfileLikelihood.max_eta.
  rewrite Rleb_false by (rewrite Rabs_pos_eq; lra).
  unfold ProfileLikelihood.find_optimal_sigma.
  eval_lists.
  rewrite inv_1x1 by (apply gram3_nonzero; lra).
  eval_lists.
  cbv [det det_rec length sum_seq nth pow map remove_nth].
  simpl INR.
  match goal with |- context [sqrt ?a] =>
    replace a with (zMz3 e / 2) by (unfold zMz3; field; lra) end.
  match goal with |- context [ln (1 * ?b * 1 + 0)] =>
    replace (1 * b * 1 + 0) with (/ (1 + e)) by (field; lra) end.
  rewrite ln_sqrt_half by (pose proof (zMz3_pos e); lra).
  rewrite ln_Rinv by lra.
  assert (E : forall a b c : R,
    -0.5 * (1 + 1 + 1 - 1) * a - (1 + 1 + 1 - 1) * (/ 2 * b)
    - 0.5 * (ln (1 + e) + (c + (ln (1 + e) + 0))) - 0.5 * - ln (1 + e)
    - 0.5 * (1 + 1 + 1 - 1)
    = - a - b - / 2 * (c + ln (1 + e)) - 1) by (intros; lra).
  rewrite E. reflexivity.
Qed.

Lemma likelihood_example_array x rest e s sign_switch :
  ProfileLikelihood.to_eta x = Np.Fin e -> 0 <= e < 1e16 ->
  ProfileLikelihood.likelihood z3 X3 mc3 sign_switch (Array (x :: rest)) s
  = (Ok (if sign_switch then - lp3 e else lp3 e),
     snd (ProfileLikelihood.set_distance_scale_from (Array (x :: rest)) s)).
Proof.
  intros Hx He.
  pose proof (likelihood_example x e) as H.
  unfold ProfileLikelihood.likelihood in *.
  unfold bind at 1. unfold bind at 1 in H.
  destruct (ProfileLikelihood.set_distance_scale_from (Array (x :: rest)) s)
    as [[[] | ?] s1] eqn:E.
  - cbn [snd]. specialize (H s1 sign_switch Hx He).
    cbn [ProfileLikelihood.set_distance_scale_from isscalar negb andb ret]
      in H.
    exact H.
  - pose proof (set_distance_scale_from_ok (Array (x :: rest)) s) as Hok.
    rewrite E in Hok. discriminate.
Qed.

Lemma likelihood_der1_eta_example x e s :
  ProfileLikelihood.to_eta x = Np.Fin e -> 0 <= e ->
  ProfileLikelihood.likelihood_der1_eta z3 X3 mc3 (Scalar x) s
  = (Ok (VScalar (dlp3 e)), s).
Proof.
  intros Hx He. unfold ProfileLikelihood.likelihood_der1_eta.
  eval_lists. rewrite Hx. eval_lists.
  rewrite inv_1x1 by (apply gram3_nonzero; exact He).
  eval_lists. do 3 f_equal. unfold dlp3, zMz3, zM2z3. simpl INR.
  field. repeat split; try lra; try nra.
Qed.

Lemma likelihood_der2_eta_example x e s :
  ProfileLikelihood.to_eta x = Np.Fin e -> 0 <= e ->
  ProfileLikelihood.likelihood_der2_eta z3 X3 mc3 (Scalar x) s
  = (Ok (VScalar (d2lp3 e)), s).
Proof.
  intros Hx He. unfold ProfileLikelihood.likelihood_der2_eta.
  eval_lists. rewrite Hx. eval_lists.
  rewrite inv_1x1 by (apply gram3_nonzero; exact He).
  eval_lists. do 3 f_equal. unfold d2lp3, zMz3, zM2z3, zM3z3. simpl INR.
  field. repeat split; try lra; try nra.
Qed.

Lemma dlp3_1 : dlp3 1 = - 9 / 140.
Proof.
  unfold dlp3, zMz3, zM2z3. replace (-0.5) with (- / 2) by lra. field.
Qed.

Lemma dlp3_10 : dlp3 10 = - 45 / 23452.
Proof.
  unfold dlp3, zMz3, zM2z3. replace (-0.5) with (- / 2) by lra. field.
Qed.

Lemma d2lp3_0 : d2lp3 0 = - 9 / 4.
Proof.
  unfold d2lp3, zMz3, zM2z3, zM3z3. replace 0.5 with (/ 2) by lra. field.
Qed.

Lemma d2lp3_1 : d2lp3 1 = 639 / 9800.
Proof.
  unfold d2lp3, zMz3, zM2z3, zM3z3. replace 0.5 with (/ 2) by lra. field.
Qed.

(** ** The mixed second derivative on the example *)

(** With two length-scales the preparation of [likelihood_der2_mixed]
    succeeds on the example, so the loop is reached. *)
Lemma likelihood_der2_mixed_setup_example :
  exists e,
    ProfileLikelihood.likelihood_der2_mixed_setup z3 X3 cov3
      (Array [Np.Fin 0; Np.Fin 1; Np.Fin 1]) None
    = (Ok e, Some (map Np.abs [Np.Fin 1; Np.Fin 1])).
Proof.
  eexists.
  unfold ProfileLikelihood.likelihood_der2_mixed_setup.
  cbn [ProfileLikelihood.get_log_eta ProfileLikelihood.slice_from_1 tl
       diag_cov mixed_cor].
  unfold bind at 1. cbn [lift]. unfold bind at 1. cbn [lift].
  unfold bind at 1. cbn [set_distance_scale].
  cbn [Np.pow10]. rewrite Rpower_O by lra.
  unfold bind at 1. rewrite find_optimal_sigma_sigma0_example by lra.
  unfold bind at 1. cbn [get_distance_scale].
  rewrite sqrt_1.
  set (sg := sqrt (zMz3 1 / 2)).
  assert (Hsg : 0 < sg).
  { apply sqrt_lt_R0. pose proof (zMz3_pos 1). lra. }
  cbv [cov_solve cov_get_matrix diag_cov cov_diag real_part k3 map
       scale_rows X3 diag_matrix diag_matrix_from length seq Nat.eqb
       matmul transpose col nth dot pow].
  unfold bind at 1.
  rewrite inv_1x1.
  2:{ match goal with |- context [1 / ?d] =>
        assert (0 < / d) by (apply Rinv_0_lt_compat; nra) end.
      unfold Rdiv. lra. }
  cbn [lift]. unfold bind at 1.
  unfold inv at 1. cbn [is_square forallb length Nat.eqb negb andb].
  rewrite det_diag3.
  rewrite Reqb_false.
  2:{ repeat apply Rmult_integral_contrapositive_currified; nra. }
  cbn [lift ret]. reflexivity.
Qed.

Lemma likelihood_der2_mixed_index_error_witness :
  (2 <= length (tl [Np.Fin 0; Np.Fin 1; Np.Fin 1]))%nat
  /\ ProfileLikelihood.likelihood_der2_mixed z3 X3 cov3
       (Array [Np.Fin 0; Np.Fin 1; Np.Fin 1]) None
     = (Raise IndexError, Some (map Np.abs [Np.Fin 1; Np.Fin 1])).
Proof.
  assert (Hsize : (2 <= length (tl [Np.Fin 0; Np.Fin 1; Np.Fin 1]))%nat)
    by (cbn; lia).
  split; [exact Hsize | ].
  destruct likelihood_der2_mixed_setup_example as [e He].
  exact (proj1 (likelihood_der2_mixed_index_error z3 X3 cov3
                  [Np.Fin 0; Np.Fin 1; Np.Fin 1] Hsize) None e _ He).
Defined.

(** ** The eta handed on by the doubly profiled likelihood *)

Lemma find_optimal_eta_example rf s :
  DoubleProfileLikelihood._find_optimal_eta minimize_at_guess rf
    z3 X3 cov3 (map Np.abs [Np.Fin 1]) (Np.Fin 1) "Nelder-Mead" s
  = (Ok (Np.Fin 10), Some (map Np.abs [Np.Fin 1])).
Proof.
  unfold DoubleProfileLikelihood._find_optimal_eta,
    ProfileLikelihood.maximize_likelihood.
  cbn [String.eqb Ascii.eqb Bool.eqb minimize_at_guess minimize].
  unfold bind at 1. cbn [set_distance_scale].
  unfold bind at 1. unfold bind at 1. unfold bind at 1.
  cbn [diag_cov mixed_cor].
  rewrite (likelihood_example_array _ _ 10) by (try apply to_eta_1; lra).
  cbn [ret res_x lift]. unfold bind at 1. cbn [lift].
  rewrite to_eta_1. unfold bind at 1.
  rewrite find_optimal_sigma_sigma0_example by lra.
  unfold bind. cbn [length Nat.ltb Nat.leb get_distance_scale ret eta
                    ProfileLikelihood.set_distance_scale_from isscalar size
                    negb andb snd].
  reflexivity.
Qed.

(** C1, at a failing input.  On the example, with the length-scale [1], the
    guess [log_eta = 1] and an optimizer that stops at its guess, the inner
    solve returns [eta = 10].  [DoubleProfileLikelihood.likelihood] then
    calls [ProfileLikelihood.likelihood] on the vector whose first entry is
    [numpy.log(10) = ln 10], not [log10(10) = 1]; that function decodes
    [eta = 10 ** ln 10], which exceeds [100]: the eta of the inner
    likelihood evaluation is not the eta the inner solve returned. *)
Theorem double_likelihood_passes_natural_log :
  DoubleProfileLikelihood._find_optimal_eta minimize_at_guess
    endpoint_bracketing z3 X3 cov3 (map Np.abs [Np.Fin 1]) (Np.Fin 1)
    "Nelder-Mead" (Some (map Np.abs [Np.Fin 1]))
  = (Ok (Np.Fin 10), Some (map Np.abs [Np.Fin 1]))
  /\ (forall sign_switch,
        DoubleProfileLikelihood.likelihood minimize_at_guess
          endpoint_bracketing z3 X3 cov3 sign_switch (Np.Fin 1) [Np.Fin 1]
          None
        = ProfileLikelihood.likelihood z3 X3 (mixed_cor cov3) sign_switch
            (Array (Np.Fin (ln 10) :: map Np.abs [Np.Fin 1]))
            (Some (map Np.abs [Np.Fin 1])))
  /\ ProfileLikelihood.get_log_eta
       (Array (Np.Fin (ln 10) :: map Np.abs [Np.Fin 1]))
     = Ok (Np.Fin (ln 10))
  /\ ProfileLikelihood.to_eta (Np.Fin (ln 10)) = Np.Fin (Rpower 10 (ln 10))
  /\ 100 < Rpower 10 (ln 10).
Proof.
  split; [apply find_optimal_eta_example | split; [ | split; [ | split]]].
  - intros sign_switch. unfold DoubleProfileLikelihood.likelihood.
    unfold bind at 1. cbn [set_distance_scale].
    unfold bind at 1. rewrite find_optimal_eta_example.
    unfold DoubleProfileLikelihood.hyperparam_full. cbn [Np.log].
    rewrite Rltb_true by lra. reflexivity.
  - reflexivity.
  - reflexivity.
  - apply Rpower_10_ln_10.
Qed.

(** ** The degenerate optima of [find_likelihood_der1_zeros] *)

Lemma degenerate_eta_both_positive l r d :
  0 < l -> 0 < r ->
  ProfileLikelihood.degenerate_eta l r d
  = Some (if Np.Rltb 0 d then Np.Fin 0 else Np.PInf).
Proof.
  intros Hl Hr. unfold ProfileLikelihood.degenerate_eta.
  rewrite (Rltb_true 0 l), (Rltb_true 0 r) by lra. reflexivity.
Qed.

Lemma degenerate_eta_both_negative l r d :
  l < 0 -> r < 0 ->
  ProfileLikelihood.degenerate_eta l r d
  = Some (if Np.Rltb d 0 then Np.Fin 0 else Np.PInf).
Proof.
  intros Hl Hr. unfold ProfileLikelihood.degenerate_eta.
  rewrite (Rltb_false 0 l) by lra.
  rewrite (Rltb_true l 0), (Rltb_true r 0) by lra. reflexivity.
Qed.

Lemma degenerate_eta_unbound l r d :
  ~ (0 < l /\ 0 < r) -> ~ (l < 0 /\ r < 0) ->
  ProfileLikelihood.degenerate_eta l r d = None.
Proof.
  intros Hp Hn. unfold ProfileLikelihood.degenerate_eta, Np.Rltb.
  destruct (Rlt_dec 0 l), (Rlt_dec 0 r), (Rlt_dec l 0), (Rlt_dec r 0);
    cbn [andb]; try reflexivity; exfalso; tauto.
Qed.

(** When no bracket is found and the end values are neither both positive
    nor both negative, the variable [eta] is read unbound: the function
    raises, whatever the second derivative is. *)
Lemma find_likelihood_der1_zeros_inconsistent_signs rf z X mc interval tol
    maxiter trials s bracket l r s1 :
  find_interval_with_sign_change rf
    (fun x => v <- ProfileLikelihood.likelihood_der1_eta z X mc (Scalar x) ;;
              ret (item v))
    (Np.log10 (fst interval), Np.log10 (snd interval)) trials s
  = (Ok (false, bracket, (l, r)), s1) ->
  ~ (0 < l /\ 0 < r) -> ~ (l < 0 /\ r < 0) ->
  exists e s2,
    ProfileLikelihood.find_likelihood_der1_zeros rf z X mc interval tol
      maxiter trials s = (Raise e, s2).
Proof.
  intros Hfind Hp Hn. unfold ProfileLikelihood.find_likelihood_der1_zeros.
  unfold bind at 1. rewrite Hfind. cbn [fst snd].
  unfold bind at 1.
  destruct (ProfileLikelihood.likelihood_der2_eta z X mc
              (Scalar (Np.Fin 0)) s1) as [[d2 | e] s2]; [ | eauto].
  rewrite degenerate_eta_unbound by assumption. unfold raise. eauto.
Qed.

(** C7, at a failing input.  On the example, searched over the interval
    [eta in [1, 10]] with no bracket trials: the derivative is negative at
    both ends ([-9/140] and [-45/23452]), so no bracket is found.  The
    analytic second derivative at [eta = 0] (that is, [log_eta = -inf]) is
    [-9/4], negative, for which the decision described gives [eta = 0].  The
    function returns [eta = inf]: it passes [eta_zero = 0.0] as the
    hyperparameter, which [likelihood_der2_eta] reads as [log_eta = 0],
    and so decides on the second derivative at [eta = 1], which is
    [639/9800], positive. *)
Theorem find_likelihood_der1_zeros_second_derivative_at_eta_one :
  item (returned (VScalar 0)
          (ProfileLikelihood.likelihood_der2_eta z3 X3 mc3
             (Scalar Np.NInf) None)) = - 9 / 4
  /\ item (returned (VScalar 0)
             (ProfileLikelihood.likelihood_der2_eta z3 X3 mc3
                (Scalar (Np.Fin 0)) None)) = 639 / 9800
  /\ ProfileLikelihood.degenerate_eta (- 9 / 140) (- 45 / 23452) (- 9 / 4)
     = Some (Np.Fin 0)
  /\ ProfileLikelihood.find_likelihood_der1_zeros endpoint_bracketing
       z3 X3 mc3 (Np.Fin 1, Np.Fin 10) 1e-6 100 0 None
     = (Ok {| sigma := Np.Fin 0;
              sigma0 := Np.Fin (ols_residual_estimator z3 X3);
              eta := Np.PInf; distance_scale := None;
              max_likelihood := None; iter := O |}, None).
Proof.
  split; [ | split; [ | split]].
  - rewrite (likelihood_der2_eta_example _ 0) by (try apply to_eta_NInf; lra).
    cbn [returned fst item]. apply d2lp3_0.
  - rewrite (likelihood_der2_eta_example _ 1)
      by (try (rewrite to_eta_Fin, Rpower_O by lra; reflexivity); lra).
    cbn [returned fst item]. apply d2lp3_1.
  - rewrite degenerate_eta_both_negative by lra.
    now rewrite Rltb_true by lra.
  - unfold ProfileLikelihood.find_likelihood_der1_zeros.
    cbn [endpoint_bracketing find_interval_with_sign_change fst snd].
    unfold bind.
    rewrite (likelihood_der1_eta_example _ 1)
      by (try apply to_eta_log10; lra).
    cbn [ret item].
    rewrite (likelihood_der1_eta_example _ 10)
      by (try apply to_eta_log10; lra).
    cbn [ret item fst snd].
    rewrite dlp3_1, dlp3_10.
    rewrite (Rltb_false (_ * _) 0) by lra.
    rewrite (likelihood_der2_eta_example _ 1)
      by (try (rewrite to_eta_Fin, Rpower_O by lra; reflexivity); lra).
    cbn [item]. rewrite d2lp3_1.
    rewrite degenerate_eta_both_negative by lra.
    rewrite (Rltb_false (639 / 9800) 0) by lra.
    cbn [Np.eqb Np.isinf orb negb].
    unfold ProfileLikelihood.find_optimal_sigma_sigma0.
    cbn [Np.abs Np.lt Np.isinf].
    unfold ProfileLikelihood.find_optimal_sigma0, bind, lift, ret.
    rewrite inv_gram by (reflexivity || exact gram_X3). reflexivity.
Qed.

(** ** The derivative that [likelihood_der1_eta] returns *)

(** Derivatives of functions written as abstractions. *)

Lemma dl_eq f x l l' :
  derivable_pt_lim f x l -> l = l' -> derivable_pt_lim f x l'.
Proof. intros H <-. exact H. Qed.

Lemma dl_const c x : derivable_pt_lim (fun _ => c) x 0.
Proof. exact (derivable_pt_lim_const c x). Qed.

Lemma dl_id x : derivable_pt_lim (fun t => t) x 1.
Proof. exact (derivable_pt_lim_id x). Qed.

Lemma dl_plus f g x a b :
  derivable_pt_lim f x a -> derivable_pt_lim g x b ->
  derivable_pt_lim (fun t => f t + g t) x (a + b).
Proof. exact (derivable_pt_lim_plus f g x a b). Qed.

Lemma dl_minus f g x a b :
  derivable_pt_lim f x a -> derivable_pt_lim g x b ->
  derivable_pt_lim (fun t => f t - g t) x (a - b).
Proof. exact (derivable_pt_lim_minus f g x a b). Qed.

Lemma dl_scal f c x a :
  derivable_pt_lim f x a -> derivable_pt_lim (fun t => c * f t) x (c * a).
Proof. exact (derivable_pt_lim_scal f c x a). Qed.

Lemma dl_div f g x a b :
  derivable_pt_lim f x a -> derivable_pt_lim g x b -> g x <> 0 ->
  derivable_pt_lim (fun t => f t / g t) x ((a * g x - b * f x) / Rsqr (g x)).
Proof. exact (derivable_pt_lim_div f g x a b). Qed.

Lemma dl_ln f x a :
  derivable_pt_lim f x a -> 0 < f x ->
  derivable_pt_lim (fun t => ln (f t)) x (/ f x * a).
Proof.
  intros Hf Hpos.
  exact (derivable_pt_lim_comp f ln x a (/ f x) Hf
           (derivable_pt_lim_ln (f x) Hpos)).
Qed.

Lemma dl_shifted_inverse c k x :
  k + x <> 0 ->
  derivable_pt_lim (fun t => c / (k + t)) x (- c / (k + x) ^ 2).
Proof.
  intros Hk.
  apply (dl_eq _ _ ((0 * (k + x) - (0 + 1) * c) / Rsqr (k + x))).
  - apply (dl_div (fun _ => c) (fun t => k + t)).
    + apply dl_const.
    + apply (dl_plus (fun _ => k) (fun t => t));
        [apply dl_const | apply dl_id].
    + exact Hk.
  - unfold Rsqr. field. exact Hk.
Qed.

Lemma dl_pow10 x : derivable_pt_lim (Rpower 10) x (Rpower 10 x * ln 10).
Proof.
  unfold Rpower.
  apply (dl_eq _ _ (exp (x * ln 10) * (1 * ln 10 + x * 0))); [ | ring].
  apply (derivable_pt_lim_comp (fun t => t * ln 10) exp).
  - apply (derivable_pt_lim_mult (fun t => t) (fun _ => ln 10)).
    + apply dl_id.
    + apply dl_const.
  - apply derivable_pt_lim_exp.
Qed.

(** The chain rule through [eta = 10 ** log_eta]. *)
Lemma dl_through_pow10 f x l :
  derivable_pt_lim f (Rpower 10 x) l ->
  derivable_pt_lim (fun xi => f (Rpower 10 xi)) x
    (l * (Rpower 10 x * ln 10)).
Proof.
  intros H.
  exact (derivable_pt_lim_comp (Rpower 10) f x _ _ (dl_pow10 x) H).
Qed.

(** A central difference with a small step is close to the derivative. *)
Lemma central_difference_close f x l eps :
  derivable_pt_lim f x l -> 0 < eps ->
  exists delta, 0 < delta /\
    forall h, 0 < h < delta -> Rabs (central_difference f x h - l) < eps.
Proof.
  intros Hd Heps. destruct (Hd eps Heps) as [delta Hdelta].
  exists delta. split; [apply cond_pos | ].
  intros h Hh.
  assert (H1 := Hdelta h ltac:(lra) ltac:(rewrite Rabs_pos_eq; lra)).
  assert (H2 := Hdelta (- h) ltac:(lra)
                  ltac:(rewrite Rabs_Ropp, Rabs_pos_eq; lra)).
  unfold central_difference.
  replace ((f (x + h) - f (x - h)) / (2 * h) - l)
    with (/ 2 * ((f (x + h) - f x) / h - l)
          + / 2 * ((f (x + - h) - f x) / - h - l))
    by (unfold Rminus; field; lra).
  apply Rabs_def1; apply Rabs_def2 in H1, H2; lra.
Qed.

Lemma likelihood_of_log_eta_pow10 z X mc s xi :
  likelihood_of_log_eta z X mc s xi
  = likelihood_of_eta z X mc s (Rpower 10 xi).
Proof.
  unfold likelihood_of_log_eta, likelihood_of_eta.
  now rewrite log10_pow10.
Qed.

(** On the example the likelihood is [lp3] of [eta], and the value of
    [likelihood_der1_eta] is the derivative of [lp3]. *)

Lemma dl_zMz3 e : 0 <= e -> derivable_pt_lim zMz3 e (- zM2z3 e).
Proof.
  intros He. unfold zMz3.
  apply (dl_eq _ _ (- 1 / (/ 4 + e) ^ 2 + - 4 / (1 + e) ^ 2)).
  - apply (dl_plus (fun t => 1 / (/ 4 + t)) (fun t => 4 / (1 + t)));
      apply dl_shifted_inverse; lra.
  - unfold zM2z3. field. lra.
Qed.

Lemma dl_lp3 e : 0 <= e -> derivable_pt_lim lp3 e (dlp3 e).
Proof.
  intros He. unfold lp3.
  pose proof (zMz3_pos e He) as Hq.
  apply (dl_eq _ _
    (0 - / (zMz3 e / 2) * (/ 2 * - zM2z3 e)
     - / 2 * (/ (/ 4 + e) * (0 + 1) + / (1 + e) * (0 + 1)) - 0)).
  - apply (dl_minus (fun t => - ln (2 * PI) - ln (zMz3 t / 2)
                              - / 2 * (ln (/ 4 + t) + ln (1 + t)))
                    (fun _ => 1)); [ | apply dl_const].
    apply (dl_minus (fun t => - ln (2 * PI) - ln (zMz3 t / 2))
                    (fun t => / 2 * (ln (/ 4 + t) + ln (1 + t)))).
    + apply (dl_minus (fun _ => - ln (2 * PI)) (fun t => ln (zMz3 t / 2)));
        [apply dl_const | ].
      apply (dl_ln (fun t => zMz3 t / 2)); [ | lra].
      apply (derivable_pt_lim_ext (fun t => / 2 * zMz3 t));
        [intros; cbv beta; lra | ].
      apply dl_scal. apply dl_zMz3. exact He.
    + apply (dl_scal (fun t => ln (/ 4 + t) + ln (1 + t))).
      apply (dl_plus (fun t => ln (/ 4 + t)) (fun t => ln (1 + t))).
      * apply (dl_ln (fun t => / 4 + t)); [ | lra].
        apply (dl_plus (fun _ => / 4) (fun t => t));
          [apply dl_const | apply dl_id].
      * apply (dl_ln (fun t => 1 + t)); [ | lra].
        apply (dl_plus (fun _ => 1) (fun t => t));
          [apply dl_const | apply dl_id].
  - unfold dlp3, zM2z3. unfold zMz3 in *.
    replace (-0.5) with (- / 2) by lra. field.
    repeat split; try lra; try nra.
Qed.

Lemma likelihood_of_eta_example s e : 0 < e < 1e16 ->
  likelihood_of_eta z3 X3 mc3 s e = lp3 e.
Proof.
  intros He. unfold likelihood_of_eta.
  rewrite (likelihood_example _ e) by (try apply to_eta_log10; lra).
  reflexivity.
Qed.

Lemma der1_eta_at_example s xi :
  der1_eta_at z3 X3 mc3 s xi = dlp3 (Rpower 10 xi).
Proof.
  unfold der1_eta_at.
  rewrite (likelihood_der1_eta_example _ (Rpower 10 xi))
    by (try apply to_eta_Fin; pose proof (Rpower_10_pos xi); lra).
  reflexivity.
Qed.

(** On the example, below the large-eta threshold, the value returned by
    [likelihood_der1_eta] is the derivative of the likelihood with respect
    to [eta]. *)
Lemma eta_derivative_example s xi0 : xi0 < 16 ->
  derivable_pt_lim (likelihood_of_eta z3 X3 mc3 s) (Rpower 10 xi0)
    (der1_eta_at z3 X3 mc3 s xi0).
Proof.
  intros Hxi. rewrite der1_eta_at_example.
  pose proof (Rpower_10_pos xi0). pose proof (Rpower_10_lt_1e16 xi0 Hxi).
  apply (derivable_pt_lim_locally_ext lp3 _ _ 0 1e16); [lra | | ].
  - intros e He. symmetry. apply likelihood_of_eta_example. exact He.
  - apply dl_lp3. lra.
Qed.

(** So its derivative with respect to [log_eta] carries the factor
    [eta * ln 10]. *)
Lemma log_eta_derivative_example s xi0 : xi0 < 16 ->
  derivable_pt_lim (likelihood_of_log_eta z3 X3 mc3 s) xi0
    (dlp3 (Rpower 10 xi0) * (Rpower 10 xi0 * ln 10)).
Proof.
  intros Hxi.
  apply (derivable_pt_lim_ext
           (fun xi => likelihood_of_eta z3 X3 mc3 s (Rpower 10 xi))).
  - intros xi. symmetry. apply likelihood_of_log_eta_pow10.
  - apply dl_through_pow10. rewrite <- (der1_eta_at_example s).
    apply eta_derivative_example. exact Hxi.
Qed.

(** On the example the derivative in [eta] has a closed form, and it is
    negative for every [eta > 0]. *)
Lemma dlp3_closed e : 0 <= e ->
  dlp3 e = - (9 / 8) * e / ((/ 4 + e) * (1 + e) * (2 + 5 * e)).
Proof.
  intros He. unfold dlp3, zM2z3, zMz3.
  replace (-0.5) with (- / 2) by lra. field.
  repeat split; try lra; try nra.
Qed.

Lemma dlp3_negative e : 0 < e -> dlp3 e < 0.
Proof.
  intros He. rewrite dlp3_closed by lra.
  assert (Hden : 0 < (/ 4 + e) * (1 + e) * (2 + 5 * e))
    by (repeat apply Rmult_lt_0_compat; lra).
  unfold Rdiv. apply Rinv_0_lt_compat in Hden.
  set (i := / _) in *. nra.
Qed.

(** With an array of one entry, as the optimizer passes it, the same value
    comes back as an array of length one, and it is the whole Jacobian. *)
Lemma likelihood_der1_eta_example_array x e s :
  ProfileLikelihood.to_eta x = Np.Fin e -> 0 <= e ->
  ProfileLikelihood.likelihood_der1_eta z3 X3 mc3 (Array [x]) s
  = (Ok (VArray1 [dlp3 e]), s).
Proof.
  intros Hx He. unfold ProfileLikelihood.likelihood_der1_eta.
  eval_lists. rewrite Hx. eval_lists.
  rewrite inv_1x1 by (apply gram3_nonzero; exact He).
  eval_lists. do 4 f_equal. unfold dlp3, zMz3, zM2z3. simpl INR.
  field. repeat split; try lra; try nra.
Qed.

Lemma likelihood_jacobian_example_array x e s sign_switch :
  ProfileLikelihood.to_eta x = Np.Fin e -> 0 <= e ->
  ProfileLikelihood.likelihood_jacobian z3 X3 cov3 sign_switch (Array [x]) s
  = (Ok [if sign_switch then - dlp3 e else dlp3 e], s).
Proof.
  intros Hx He. unfold ProfileLikelihood.likelihood_jacobian.
  cbn [diag_cov mixed_cor size length Nat.ltb Nat.leb]. unfold bind at 1.
  rewrite (likelihood_der1_eta_example_array x e) by assumption.
  destruct sign_switch; reflexivity.
Qed.

(** A value that lacks a factor above [2] of a negative derivative stays
    away from every fine enough central difference. *)
Lemma central_difference_misses_factor f x d k :
  derivable_pt_lim f x (d * k) -> d < 0 -> 2 < k ->
  exists delta, 0 < delta /\
    forall h, 0 < h < delta ->
      1e-4 * Rabs (central_difference f x h)
      < Rabs (d - central_difference f x h).
Proof.
  intros Hd Hneg Hk.
  destruct (central_difference_close f x (d * k) (- d / 100) Hd
              ltac:(lra)) as [delta [Hpos Hclose]].
  exists delta. split; [exact Hpos | ].
  intros h Hh. specialize (Hclose h Hh).
  set (fd := central_difference f x h) in *.
  assert (HP : d * k < 2 * d) by nra.
  set (P := d * k) in *.
  apply Rabs_def2 in Hclose.
  rewrite (Rabs_left fd) by lra.
  rewrite Rabs_pos_eq by lra. lra.
Qed.

(** C2: the code departs from the claim.  On the example, for every
    [log_eta] in [[0, 2]] (every [eta] in [[1, 100]], inside the moderate
    range): [likelihood_der1_eta] returns the derivative of the likelihood
    with respect to [eta]; [likelihood_jacobian] hands that value, or its
    negation under [sign_switch], to the optimizer as the gradient over
    the hyperparameter [[log_eta]]; the derivative of [likelihood] with
    respect to [log_eta] is that value times [eta * ln 10], the factor of
    the commented-out line; and the returned value differs from every fine
    enough central difference of [likelihood] over [log_eta] by more than
    [1e-4] in relative terms. *)
Theorem likelihood_der1_eta_omits_log_eta_factor s xi0 sign_switch :
  0 <= xi0 <= 2 ->
  ProfileLikelihood.likelihood_der1_eta z3 X3 mc3 (Scalar (Np.Fin xi0)) s
  = (Ok (VScalar (dlp3 (Rpower 10 xi0))), s)
  /\ ProfileLikelihood.likelihood_jacobian z3 X3 cov3 sign_switch
       (Array [Np.Fin xi0]) s
     = (Ok [if sign_switch then - dlp3 (Rpower 10 xi0)
            else dlp3 (Rpower 10 xi0)], s)
  /\ derivable_pt_lim (likelihood_of_eta z3 X3 mc3 s) (Rpower 10 xi0)
       (der1_eta_at z3 X3 mc3 s xi0)
  /\ derivable_pt_lim (likelihood_of_log_eta z3 X3 mc3 s) xi0
       (der1_eta_at z3 X3 mc3 s xi0 * (Rpower 10 xi0 * ln 10))
  /\ exists delta, 0 < delta /\
       forall h, 0 < h < delta ->
         1e-4 * Rabs (central_difference
                        (likelihood_of_log_eta z3 X3 mc3 s) xi0 h)
         < Rabs (der1_eta_at z3 X3 mc3 s xi0
                 - central_difference
                     (likelihood_of_log_eta z3 X3 mc3 s) xi0 h).
Proof.
  intros Hxi.
  pose proof (Rpower_10_pos xi0) as Hpos.
  assert (Hone : 1 <= Rpower 10 xi0).
  { rewrite <- (Rpower_O 10) by lra. apply Rle_Rpower; lra. }
  pose proof (log_eta_derivative_example s xi0 ltac:(lra)) as Hlog.
  split; [apply likelihood_der1_eta_example; [apply to_eta_Fin | lra] | ].
  split; [apply likelihood_jacobian_example_array;
          [apply to_eta_Fin | lra] | ].
  split; [apply eta_derivative_example; lra | ].
  rewrite der1_eta_at_example.
  split; [exact Hlog | ].
  apply (central_difference_misses_factor _ _ _ (Rpower 10 xi0 * ln 10)).
  - exact Hlog.
  - apply dlp3_negative. exact Hpos.
  - pose proof ln_10_gt_2. nra.
Qed.

Lemma likelihood_der1_eta_omits_log_eta_factor_witness :
  0 <= 0 <= 2
  /\ ProfileLikelihood.likelihood_der1_eta z3 X3 mc3 (Scalar (Np.Fin 0)) None
     = (Ok (VScalar (dlp3 (Rpower 10 0))), None)
  /\ exists delta, 0 < delta /\
       forall h, 0 < h < delta ->
         1e-4 * Rabs (central_difference
                        (likelihood_of_log_eta z3 X3 mc3 None) 0 h)
         < Rabs (der1_eta_at z3 X3 mc3 None 0
                 - central_difference
                     (likelihood_of_log_eta z3 X3 mc3 None) 0 h).
Proof.
  assert (H : 0 <= 0 <= 2) by lra.
  pose proof (likelihood_der1_eta_omits_log_eta_factor None 0 false H)
    as [H1 [_ [_ [_ H5]]]].
  split; [exact H | split; [exact H1 | exact H5]].
Defined.

(** * Further properties of the profile-likelihood engine *)

(** ** The estimators at large [eta] *)

(** X4: for every finite [eta > 1e16] and a design matrix of full column
    rank, [sigma0] is the least-squares residual estimator and
    [sigma = sigma0 / sqrt(eta)]; the operator is not consulted. *)
Theorem find_optimal_sigma_sigma0_large_eta z X mc e s :
  1e16 < e ->
  det (matmul (transpose X) X) <> 0 ->
  ProfileLikelihood.find_optimal_sigma_sigma0 z X mc (Np.Fin e) s
  = (Ok (Np.Fin (ols_residual_estimator z X / sqrt e),
         Np.Fin (ols_residual_estimator z X)), s).
Proof.
  intros He Hrank.
  assert (Hpos : 0 < sqrt e) by (apply sqrt_lt_R0; lra).
  unfold ProfileLikelihood.find_optimal_sigma_sigma0.
  cbn [Np.abs Np.lt Np.isinf]. unfold ProfileLikelihood.max_eta.
  rewrite Rltb_true by (rewrite Rabs_pos_eq; lra).
  unfold ProfileLikelihood.find_optimal_sigma0, bind, lift, ret.
  rewrite inv_gram by (reflexivity || exact Hrank).
  cbn [Np.sqrt Np.div]. rewrite (Rltb_false e 0) by lra.
  cbn [Np.div]. rewrite (Reqb_false (sqrt e) 0) by lra. reflexivity.
Qed.

Lemma find_optimal_sigma_sigma0_large_eta_witness :
  1e16 < 1e17
  /\ det (matmul (transpose X3) X3) <> 0
  /\ ProfileLikelihood.find_optimal_sigma_sigma0 z3 X3 mc3 (Np.Fin 1e17) None
     = (Ok (Np.Fin (ols_residual_estimator z3 X3 / sqrt 1e17),
            Np.Fin (ols_residual_estimator z3 X3)), None).
Proof.
  assert (H : 1e16 < 1e17) by lra.
  split; [exact H | split; [exact gram_X3 | ]].
  exact (find_optimal_sigma_sigma0_large_eta z3 X3 mc3 1e17 None H gram_X3).
Defined.

(** ** The likelihood at large [eta], and its use of the length-scale *)

Lemma large_log_eta_test x :
  large_log_eta x ->
  Np.le (Np.Fin ProfileLikelihood.max_eta)
        (Np.abs (ProfileLikelihood.to_eta x)) = true.
Proof.
  destruct x as [xi | | | ]; cbn [large_log_eta]; intros H; try contradiction.
  - rewrite to_eta_Fin. cbn [Np.abs Np.le].
    unfold ProfileLikelihood.max_eta. apply Rleb_true.
    rewrite Rabs_pos_eq by (apply Rlt_le, Rpower_10_pos).
    rewrite <- Rpower_10_16. apply Rle_Rpower; lra.
  - reflexivity.
Qed.

(** X5: once [eta >= 1e16] ([log_eta >= 16], or [+inf]) the likelihood no
    longer depends on [eta] nor on the operator: any two such scalar
    hyperparameters, with any two operators, give the same result. *)
Theorem likelihood_large_eta_constant z X mc1 mc2 sign_switch x1 x2 s :
  large_log_eta x1 -> large_log_eta x2 ->
  ProfileLikelihood.likelihood z X mc1 sign_switch (Scalar x1) s
  = ProfileLikelihood.likelihood z X mc2 sign_switch (Scalar x2) s.
Proof.
  intros H1 H2. unfold ProfileLikelihood.likelihood.
  cbn [ProfileLikelihood.get_log_eta ProfileLikelihood.set_distance_scale_from
       isscalar negb andb].
  unfold bind at 1 2. cbn [ret lift].
  unfold bind at 1 2. cbn [ret lift].
  symmetry. unfold bind at 1 2. cbn [ret lift].
  unfold bind at 1 2. cbn [ret lift].
  rewrite !large_log_eta_test by assumption. reflexivity.
Qed.

Lemma likelihood_large_eta_constant_witness :
  large_log_eta (Np.Fin 16) /\ large_log_eta Np.PInf
  /\ ProfileLikelihood.likelihood z3 X3 mc3 false (Scalar (Np.Fin 16)) None
     = ProfileLikelihood.likelihood z3 X3 (diag_mixed_cor [2; 3; 5]) false
         (Scalar Np.PInf) None.
Proof.
  assert (H1 : large_log_eta (Np.Fin 16)) by (cbn; lra).
  assert (H2 : large_log_eta Np.PInf) by exact I.
  split; [exact H1 | split; [exact H2 | ]].
  exact (likelihood_large_eta_constant z3 X3 mc3 (diag_mixed_cor [2; 3; 5])
           false (Np.Fin 16) Np.PInf None H1 H2).
Defined.

(** X6: only the absolute values of the length-scale entries matter: two
    hyperparameter arrays with the same [log_eta] and the same
    [|hyperparam[1:]|] give the same result and the same final state. *)
Theorem likelihood_folds_distance_scale z X mc sign_switch x ds ds' s :
  map Np.abs ds = map Np.abs ds' ->
  ProfileLikelihood.likelihood z X mc sign_switch (Array (x :: ds)) s
  = ProfileLikelihood.likelihood z X mc sign_switch (Array (x :: ds')) s.
Proof.
  intros H.
  assert (HL : length ds = length ds').
  { apply (f_equal (@length _)) in H. now rewrite !length_map in H. }
  unfold ProfileLikelihood.likelihood,
    ProfileLikelihood.set_distance_scale_from.
  cbn [isscalar negb andb size length tail_of tl
       ProfileLikelihood.get_log_eta].
  rewrite HL, H. reflexivity.
Qed.

Lemma likelihood_folds_distance_scale_witness :
  map Np.abs [Np.Fin (- (2))] = map Np.abs [Np.Fin 2]
  /\ ProfileLikelihood.likelihood z3 X3 mc3 false
       (Array [Np.Fin 0; Np.Fin (- (2))]) None
     = ProfileLikelihood.likelihood z3 X3 mc3 false
         (Array [Np.Fin 0; Np.Fin 2]) None.
Proof.
  assert (H : map Np.abs [Np.Fin (- (2))] = map Np.abs [Np.Fin 2])
    by (cbn [map Np.abs]; rewrite Rabs_Ropp; reflexivity).
  split; [exact H | ].
  exact (likelihood_folds_distance_scale z3 X3 mc3 false (Np.Fin 0) _ _ None H).
Defined.

(** X7: [likelihood] writes to the operator exactly when the hyperparameter
    is an array with length-scale entries: the operator then holds
    [|hyperparam[1:]|] afterwards, also when the evaluation raises;
    a scalar or a one-entry array leaves the state as it was. *)
Theorem likelihood_final_state z X mc sign_switch h s :
  snd (ProfileLikelihood.likelihood z X mc sign_switch h s)
  = match h with
    | Array (_ :: d :: ds) => Some (map Np.abs (d :: ds))
    | _ => s
    end.
Proof.
  unfold ProfileLikelihood.likelihood.
  set (rest := fun _ : unit => bind _ _).
  assert (P : forall u, preserves_state (rest u)).
  { intros u. subst rest. cbv beta. preserves. }
  unfold bind.
  destruct h as [x | [ | x [ | d ds]]];
    cbn [ProfileLikelihood.set_distance_scale_from isscalar negb andb size
         length Nat.ltb Nat.leb ret set_distance_scale tail_of tl];
    apply (P tt).
Qed.

(** X8: an empty hyperparameter array raises [IndexError] in [likelihood],
    [likelihood_der1_eta] and [likelihood_der2_eta], before the operator is
    consulted and without changing its state. *)
Theorem empty_hyperparam_index_error z X mc sign_switch s :
  ProfileLikelihood.likelihood z X mc sign_switch (Array []) s
  = (Raise IndexError, s)
  /\ ProfileLikelihood.likelihood_der1_eta z X mc (Array []) s
     = (Raise IndexError, s)
  /\ ProfileLikelihood.likelihood_der2_eta z X mc (Array []) s
     = (Raise IndexError, s).
Proof. repeat split. Qed.

(** ** Shape and symmetry of the derivative arrays *)

Lemma for_range_invariant {A : Type} (P : A -> Prop)
    (body : nat -> A -> M A) len :
  (forall i a s a' s', body i a s = (Ok a', s') -> P a -> P a') ->
  forall start acc s r s',
    P acc -> for_range start len body acc s = (Ok r, s') -> P r.
Proof.
  intros Hbody. induction len as [ | len IH]; intros start acc s r s' Hacc.
  - cbn [for_range]. unfold ret. intros H. injection H as <- _. exact Hacc.
  - cbn [for_range]. unfold bind.
    destruct (body start acc s) as [[a' | e] s1] eqn:E; [ | discriminate].
    apply IH. eapply Hbody; eassumption.
Qed.

Ltac absurd_case :=
  let H := fresh "H" in intros H; cbv beta iota in H; discriminate H.

Ltac list_lia := unfold matrix, vector in *; lia.

Lemma nth_replace {A : Type} (a : list A) p v j d :
  (p < length a)%nat ->
  nth j (firstn p a ++ v :: skipn (S p) a) d
  = if Nat.eqb j p then v else nth j a d.
Proof.
  intros Hp.
  assert (Hf : length (firstn p a) = p) by (rewrite length_firstn; lia).
  destruct (Nat.eqb j p) eqn:Ej.
  - apply Nat.eqb_eq in Ej. subst j.
    rewrite app_nth2 by lia. rewrite Hf, Nat.sub_diag. reflexivity.
  - apply Nat.eqb_neq in Ej.
    destruct (Nat.lt_ge_cases j p) as [Hlt | Hge].
    + rewrite app_nth1 by lia. rewrite nth_firstn.
      apply Nat.ltb_lt in Hlt. now rewrite Hlt.
    + rewrite app_nth2 by lia. rewrite Hf.
      destruct (j - p)%nat as [ | k] eqn:Ek; [lia | ].
      cbn [nth]. rewrite nth_skipn. f_equal. lia.
Qed.

Lemma length_replace {A : Type} (a : list A) p v :
  (p < length a)%nat ->
  length (firstn p a ++ v :: skipn (S p) a) = length a.
Proof.
  intros Hp. rewrite length_app. cbn [length].
  rewrite length_firstn, length_skipn. lia.
Qed.

Lemma setitem_spec {A : Type} (a : list A) p v a' :
  setitem a p v = Ok a' ->
  (p < length a)%nat /\ length a' = length a
  /\ forall j d, nth j a' d = if Nat.eqb j p then v else nth j a d.
Proof.
  unfold setitem.
  destruct (Nat.ltb p (length a)) eqn:E; [ | absurd_case].
  apply Nat.ltb_lt in E. intros H.
  assert (Ha' : a' = firstn p a ++ v :: skipn (S p) a) by congruence.
  subst a'. clear H.
  split; [exact E | split].
  - apply length_replace. exact E.
  - intros j d. apply nth_replace. exact E.
Qed.

Lemma setitem2_spec (a : matrix) p q v a' :
  setitem2 a p q v = Ok a' ->
  (p < length a)%nat /\ (q < length (nth p a []))%nat
  /\ length a' = length a
  /\ (forall i, length (nth i a' []) = length (nth i a []))
  /\ forall i j, entry a' i j
                 = if Nat.eqb i p && Nat.eqb j q then v else entry a i j.
Proof.
  unfold setitem2.
  match goal with
  | |- context [match ?t with Some _ => _ | None => _ end] =>
      destruct t as [row | ] eqn:Erow; [ | absurd_case]
  end.
  unfold matrix, vector in *.
  assert (Hp : (p < length a)%nat)
    by (apply nth_error_Some; congruence).
  assert (Hrow : nth p a [] = row) by (apply nth_error_nth; exact Erow).
  destruct (setitem row q v) as [row' | ] eqn:Eset; [ | absurd_case].
  apply setitem_spec in Eset as (Hq & Hlen & Hnth).
  intros H.
  assert (Ha' : a' = firstn p a ++ row' :: skipn (S p) a) by congruence.
  subst a'. clear H.
  split; [exact Hp | split; [now rewrite Hrow | split; [ | split]]].
  - apply length_replace. exact Hp.
  - intros i. rewrite nth_replace by exact Hp.
    destruct (Nat.eqb i p) eqn:Ei; [ | reflexivity].
    apply Nat.eqb_eq in Ei. subst i. now rewrite Hrow.
  - intros i j. unfold entry, vector. rewrite nth_replace by exact Hp.
    destruct (Nat.eqb i p) eqn:Ei; cbn [andb]; [ | reflexivity].
    apply Nat.eqb_eq in Ei. subst i. rewrite Hnth, Hrow. reflexivity.
Qed.

Lemma rows_length n (a : matrix) :
  length a = n ->
  (Forall (fun r => length r = n) a
   <-> forall i, (i < n)%nat -> length (nth i a []) = n).
Proof.
  unfold matrix, vector in *. intros HL. rewrite Forall_forall. split.
  - intros H i Hi. apply H. apply nth_In. lia.
  - intros H r Hr. destruct (In_nth _ _ [] Hr) as (i & Hi & <-).
    apply H. lia.
Qed.

Lemma symmetric_setitem2 n a p q v a' :
  symmetric n a -> setitem2 a p q v = Ok a' ->
  length a' = n /\ Forall (fun r => length r = n) a'
  /\ (p < n)%nat /\ (q < n)%nat
  /\ forall i j, entry a' i j
                 = if Nat.eqb i p && Nat.eqb j q then v else entry a i j.
Proof.
  intros (HL & HR & _) H.
  apply setitem2_spec in H as (Hp & Hq & HL' & HR' & He).
  unfold matrix, vector in *.
  pose proof (proj1 (rows_length n a HL) HR) as Hrows.
  assert (Hpn : (p < n)%nat) by lia.
  split; [lia | split; [ | split; [exact Hpn | split; [ | exact He]]]].
  - apply (rows_length n a'); [list_lia | ].
    intros i Hi. rewrite HR'. apply Hrows. exact Hi.
  - rewrite Hrows in Hq by exact Hpn. exact Hq.
Qed.

(** Writing one value at [(p, q)] and at [(q, p)] keeps a matrix
    symmetric. *)
Lemma symmetric_step n a p q v s r s' :
  symmetric n a ->
  (der2 <- lift (setitem2 a p q v) ;;
   if negb (Nat.eqb p q) then lift (setitem2 der2 q p v) else ret der2) s
  = (Ok r, s') ->
  symmetric n r.
Proof.
  intros Hsym. unfold bind, lift, ret.
  destruct (setitem2 a p q v) as [a1 | ] eqn:E1; [ | absurd_case].
  destruct (symmetric_setitem2 _ _ _ _ _ _ Hsym E1)
    as (HL1 & HR1 & Hp & Hq & He1).
  destruct Hsym as (HL & HR & Hs).
  destruct (Nat.eqb p q) eqn:Epq; cbn [negb].
  - intros H. injection H as <- _. apply Nat.eqb_eq in Epq. subst q.
    split; [exact HL1 | split; [exact HR1 | ]].
    intros i j Hi Hj. rewrite !He1.
    destruct (Nat.eqb i p) eqn:Ei, (Nat.eqb j p) eqn:Ej; cbn [andb];
      auto.
  - destruct (setitem2 a1 q p v) as [a2 | ] eqn:E2; [ | absurd_case].
    intros H. injection H as <- _.
    apply setitem2_spec in E2 as (_ & _ & HL2 & HR2 & He2).
    split; [list_lia | split].
    + apply (rows_length n a2); [list_lia | ].
      intros i Hi. rewrite HR2.
      apply (proj1 (rows_length n a1 HL1) HR1). exact Hi.
    + intros i j Hi Hj. rewrite !He2, !He1.
      apply Nat.eqb_neq in Epq.
      destruct (Nat.eqb i p) eqn:Eip, (Nat.eqb j q) eqn:Ejq,
               (Nat.eqb i q) eqn:Eiq, (Nat.eqb j p) eqn:Ejp;
        cbn [andb]; try reflexivity;
        repeat match goal with
               | H : Nat.eqb _ _ = true |- _ => apply Nat.eqb_eq in H
               | H : Nat.eqb _ _ = false |- _ => apply Nat.eqb_neq in H
               end; subst; try congruence; auto.
Qed.

Lemma symmetric_zeros n : symmetric n (repeat (repeat 0 n) n).
Proof.
  split; [apply repeat_length | split].
  - apply Forall_forall. intros r Hr. apply repeat_spec in Hr. subst r.
    apply repeat_length.
  - intros p q Hp Hq. unfold entry.
    rewrite !(nth_repeat_lt (repeat 0 n)) by assumption.
    rewrite !nth_repeat. reflexivity.
Qed.

(** The double loop of [likelihood_der2_distance_scale] keeps the array
    square and symmetric: each pass writes [(p, q)] and mirrors it into
    [(q, p)]. *)
Lemma der2_distance_scale_loops_symmetric z X cov a s H s' :
  ProfileLikelihood.likelihood_der2_distance_scale z X cov (Array a) s
  = (Ok H, s') ->
  symmetric (length (tl a)) H.
Proof.
  unfold ProfileLikelihood.likelihood_der2_distance_scale.
  cbn [ProfileLikelihood.slice_from_1 lift]. unfold bind at 1.
  destruct (lift (ProfileLikelihood.get_log_eta (Array a)) s)
    as [[x | e] s0]; [ | absurd_case].
  unfold bind at 1. cbn [lift]. unfold bind at 1. cbn [set_distance_scale].
  unfold bind at 1.
  destruct (ProfileLikelihood.find_optimal_sigma_sigma0 z X (mixed_cor cov)
              (Np.pow10 x) (Some (map Np.abs (tl a))))
    as [[[sg sg0] | e] s1]; [ | absurd_case].
  unfold bind at 1. cbn [get_distance_scale].
  unfold bind at 1. destruct (lift (inv _) s1) as [[Binv | e] s2];
    [ | absurd_case].
  unfold bind at 1. destruct (lift (inv _) s2) as [[Sinv | e] s3];
    [ | absurd_case].
  rewrite length_map.
  apply (for_range_invariant (symmetric (length (tl a))));
    [ | apply symmetric_zeros].
  intros p a0 t a1 t' Hbody Ha0. revert Hbody.
  apply (for_range_invariant (symmetric (length (tl a)))); [ | exact Ha0].
  intros q b0 u b1 u' Hbody Hb0.
  eapply symmetric_step; [exact Hb0 | exact Hbody].
Qed.

(** X9: whenever [likelihood_der2_distance_scale] returns, the array is
    square, of the size of the length-scale vector, and symmetric: the
    loops visit every pair [(p, q)], and each visit with [p <> q] writes
    the same value to [(p, q)] and to [(q, p)]. *)
Theorem likelihood_der2_distance_scale_symmetric z X cov a s H s' :
  ProfileLikelihood.likelihood_der2_distance_scale z X cov (Array a) s
  = (Ok H, s') ->
  length H = length (tl a)
  /\ Forall (fun row => length row = length (tl a)) H
  /\ forall p q : nat, (p < length (tl a))%nat -> (q < length (tl a))%nat ->
                       entry H p q = entry H q p.
Proof.
  intros E. exact (der2_distance_scale_loops_symmetric _ _ _ _ _ _ _ E).
Qed.

(** The preparation shared by the length-scale derivatives succeeds on the
    example, for one length-scale. *)
Lemma likelihood_der2_distance_scale_example s :
  exists H,
    ProfileLikelihood.likelihood_der2_distance_scale z3 X3 cov3
      (Array [Np.Fin 0; Np.Fin 1]) s
    = (Ok H, Some (map Np.abs [Np.Fin 1])).
Proof.
  eexists.
  unfold ProfileLikelihood.likelihood_der2_distance_scale.
  cbn [ProfileLikelihood.get_log_eta ProfileLikelihood.slice_from_1 tl
       diag_cov mixed_cor].
  unfold bind at 1. cbn [lift]. unfold bind at 1. cbn [lift].
  unfold bind at 1. cbn [set_distance_scale].
  cbn [Np.pow10]. rewrite Rpower_O by lra.
  unfold bind at 1. rewrite find_optimal_sigma_sigma0_example by lra.
  unfold bind at 1. cbn [get_distance_scale].
  rewrite sqrt_1.
  set (sg := sqrt (zMz3 1 / 2)).
  assert (Hsg : 0 < sg).
  { apply sqrt_lt_R0. pose proof (zMz3_pos 1). lra. }
  cbv [cov_solve cov_get_matrix diag_cov cov_diag real_part k3 map
       scale_rows X3 diag_matrix diag_matrix_from length seq Nat.eqb
       matmul transpose col nth dot pow].
  unfold bind at 1.
  rewrite inv_1x1.
  2:{ match goal with |- context [1 / ?d] =>
        assert (0 < / d) by (apply Rinv_0_lt_compat; nra) end.
      unfold Rdiv. lra. }
  cbn [lift]. unfold bind at 1.
  unfold inv at 1. cbn [is_square forallb length Nat.eqb negb andb].
  rewrite det_diag3.
  rewrite Reqb_false.
  2:{ repeat apply Rmult_integral_contrapositive_currified; nra. }
  cbv [for_range bind lift ret setitem2 setitem nth_error Nat.eqb negb
       length Nat.ltb Nat.leb firstn skipn app repeat].
  reflexivity.
Qed.

(** The same with two length-scales, where the loop visits [(0, 1)] and
    [(1, 0)] and mirrors each of them. *)
Lemma likelihood_der2_distance_scale_example_two s :
  exists H,
    ProfileLikelihood.likelihood_der2_distance_scale z3 X3 cov3
      (Array [Np.Fin 0; Np.Fin 1; Np.Fin (- (2))]) s
    = (Ok H, Some (map Np.abs [Np.Fin 1; Np.Fin (- (2))])).
Proof.
  eexists.
  unfold ProfileLikelihood.likelihood_der2_distance_scale.
  cbn [ProfileLikelihood.get_log_eta ProfileLikelihood.slice_from_1 tl
       diag_cov mixed_cor].
  unfold bind at 1. cbn [lift]. unfold bind at 1. cbn [lift].
  unfold bind at 1. cbn [set_distance_scale].
  cbn [Np.pow10]. rewrite Rpower_O by lra.
  unfold bind at 1. rewrite find_optimal_sigma_sigma0_example by lra.
  unfold bind at 1. cbn [get_distance_scale].
  rewrite sqrt_1.
  set (sg := sqrt (zMz3 1 / 2)).
  assert (Hsg : 0 < sg).
  { apply sqrt_lt_R0. pose proof (zMz3_pos 1). lra. }
  cbv [cov_solve cov_get_matrix diag_cov cov_diag real_part k3 map
       scale_rows X3 diag_matrix diag_matrix_from length seq Nat.eqb
       matmul transpose col nth dot pow].
  unfold bind at 1.
  rewrite inv_1x1.
  2:{ match goal with |- context [1 / ?d] =>
        assert (0 < / d) by (apply Rinv_0_lt_compat; nra) end.
      unfold Rdiv. lra. }
  cbn [lift]. unfold bind at 1.
  unfold inv at 1. cbn [is_square forallb length Nat.eqb negb andb].
  rewrite det_diag3.
  rewrite Reqb_false.
  2:{ repeat apply Rmult_integral_contrapositive_currified; nra. }
  cbv [for_range bind lift ret setitem2 setitem nth_error Nat.eqb negb
       length Nat.ltb Nat.leb firstn skipn app repeat].
  reflexivity.
Qed.

Lemma likelihood_der2_distance_scale_symmetric_witness :
  exists H,
    ProfileLikelihood.likelihood_der2_distance_scale z3 X3 cov3
      (Array [Np.Fin 0; Np.Fin 1; Np.Fin (- (2))]) None
    = (Ok H, Some (map Np.abs [Np.Fin 1; Np.Fin (- (2))]))
    /\ length H = 2%nat
    /\ Forall (fun row => length row = 2%nat) H
    /\ entry H 0 1 = entry H 1 0.
Proof.
  destruct (likelihood_der2_distance_scale_example_two None) as [H HH].
  exists H. split; [exact HH | ].
  destruct (likelihood_der2_distance_scale_symmetric z3 X3 cov3
              [Np.Fin 0; Np.Fin 1; Np.Fin (- (2))] None H _ HH)
    as [HL [HR Hsym]].
  split; [exact HL | split; [exact HR | ]].
  apply Hsym; cbn [tl length]; lia.
Defined.

(** ** Jacobian and Hessian of the profiled likelihood *)

(** X10: the Jacobian with [sign_switch = True] is the entrywise negation
    of the Jacobian with [sign_switch = False]; exceptions and the final
    state coincide. *)
Theorem likelihood_jacobian_sign_switch z X cov h s :
  ProfileLikelihood.likelihood_jacobian z X cov true h s
  = (result_map (map Ropp)
       (fst (ProfileLikelihood.likelihood_jacobian z X cov false h s)),
     snd (ProfileLikelihood.likelihood_jacobian z X cov false h s)).
Proof.
  unfold ProfileLikelihood.likelihood_jacobian, bind.
  repeat run_step; try reflexivity.
  all: destruct (Nat.ltb 1 (size h)); unfold bind, ret in *.
  all: repeat run_step; try reflexivity.
  all: repeat match goal with
              | H : (_, _) = (_, _) |- _ => injection H as ? ?; subst
              end; try reflexivity; try discriminate.
Qed.

(** X11: the same for the Hessian. *)
Theorem likelihood_hessian_sign_switch z X cov h s :
  ProfileLikelihood.likelihood_hessian z X cov true h s
  = (result_map (map (map Np.neg))
       (fst (ProfileLikelihood.likelihood_hessian z X cov false h s)),
     snd (ProfileLikelihood.likelihood_hessian z X cov false h s)).
Proof.
  unfold ProfileLikelihood.likelihood_hessian, bind.
  repeat run_step; try reflexivity.
  all: destruct (Nat.ltb 1 (size h)); unfold bind, ret in *.
  all: repeat run_step; try reflexivity.
  all: repeat match goal with
              | H : (_, _) = (_, _) |- _ => injection H as ? ?; subst
              end; try reflexivity; try discriminate.
Qed.

Lemma likelihood_der1_eta_shape z X mc h s v s' :
  ProfileLikelihood.likelihood_der1_eta z X mc h s = (Ok v, s') ->
  exists d, v = if isscalar h then VScalar d else VArray1 [d].
Proof.
  unfold ProfileLikelihood.likelihood_der1_eta, bind, ret, solve, solve_vec,
    traceinv.
  repeat (match goal with
          | |- context [match ?m ?s with (_, _) => _ end] =>
              destruct (m s) as [[? | ?] ?]
          end; try absurd_case).
  intros H. injection H as <- _. eauto.
Qed.

Lemma likelihood_der2_eta_shape z X mc h s v s' :
  ProfileLikelihood.likelihood_der2_eta z X mc h s = (Ok v, s') ->
  exists d, v = if isscalar h then VScalar d else VArray2 [[d]].
Proof.
  unfold ProfileLikelihood.likelihood_der2_eta, bind, ret, solve, solve_vec,
    traceinv.
  repeat (match goal with
          | |- context [match ?m ?s with (_, _) => _ end] =>
              destruct (m s) as [[? | ?] ?]
          end; try absurd_case).
  intros H. injection H as <- _. eauto.
Qed.

Lemma likelihood_der1_eta_nonempty z X mc s v s' :
  ProfileLikelihood.likelihood_der1_eta z X mc (Array []) s <> (Ok v, s').
Proof. discriminate. Qed.

Lemma likelihood_der1_distance_scale_length z X cov a s v s' :
  ProfileLikelihood.likelihood_der1_distance_scale z X cov (Array a) s
  = (Ok v, s') ->
  length v = length (tl a).
Proof.
  unfold ProfileLikelihood.likelihood_der1_distance_scale.
  cbn [ProfileLikelihood.slice_from_1 lift]. unfold bind at 1.
  destruct (lift (ProfileLikelihood.get_log_eta (Array a)) s)
    as [[x | e] s0]; [ | absurd_case].
  unfold bind at 1. cbn [lift]. unfold bind at 1. cbn [set_distance_scale].
  unfold bind at 1.
  destruct (ProfileLikelihood.find_optimal_sigma_sigma0 z X (mixed_cor cov)
              (Np.pow10 x) (Some (map Np.abs (tl a))))
    as [[[sg sg0] | e] s1]; [ | absurd_case].
  unfold bind at 1. cbn [get_distance_scale].
  unfold bind at 1. destruct (lift (inv _) s1) as [[Binv | e] s2];
    [ | absurd_case].
  unfold bind at 1. destruct (lift (inv _) s2) as [[Sinv | e] s3];
    [ | absurd_case].
  rewrite length_map.
  apply (for_range_invariant (fun v => length v = length (tl a)));
    [ | apply repeat_length].
  intros p acc t acc' t' Hbody Hacc. unfold lift in Hbody.
  injection Hbody as Hset _. apply setitem_spec in Hset as (_ & HL & _).
  unfold vector in *. congruence.
Qed.

(** X12: whenever [likelihood_jacobian] returns on a hyperparameter array,
    the Jacobian has one entry per entry of the array: the derivative in
    [eta] followed by one derivative per length-scale. *)
Theorem likelihood_jacobian_length z X cov sign_switch a s j s' :
  ProfileLikelihood.likelihood_jacobian z X cov sign_switch (Array a) s
  = (Ok j, s') ->
  length j = length a.
Proof.
  unfold ProfileLikelihood.likelihood_jacobian. unfold bind at 1.
  destruct (ProfileLikelihood.likelihood_der1_eta z X (mixed_cor cov)
              (Array a) s) as [[v | e] s1] eqn:E1; [ | absurd_case].
  destruct (likelihood_der1_eta_shape _ _ _ _ _ _ _ E1) as [d Hv].
  cbn [isscalar] in Hv. subst v.
  cbn [ProfileLikelihood.atleast_1d size].
  destruct (Nat.ltb 1 (length a)) eqn:Esize; unfold bind, ret.
  - destruct (ProfileLikelihood.likelihood_der1_distance_scale z X cov
                (Array a) s1) as [[g | e] s2] eqn:E2; [ | absurd_case].
    apply likelihood_der1_distance_scale_length in E2.
    intros H. injection H as <- _.
    apply Nat.ltb_lt in Esize.
    destruct sign_switch; cbn [length app map]; rewrite ?length_map;
      destruct a; cbn [length tl] in *; list_lia.
  - intros H. injection H as <- _.
    apply Nat.ltb_ge in Esize.
    assert (length a = 1)%nat.
    { destruct a as [ | x a]; cbn [length] in *; [ | lia].
      exfalso. eapply likelihood_der1_eta_nonempty. exact E1. }
    destruct sign_switch; cbn [length map]; lia.
Qed.

(** On the example with one length-scale, both parts of the Jacobian are
    computed. *)
Lemma likelihood_der1_eta_example_pair x d e s :
  ProfileLikelihood.to_eta x = Np.Fin e -> 0 <= e ->
  ProfileLikelihood.likelihood_der1_eta z3 X3 mc3 (Array [x; d]) s
  = (Ok (VArray1 [dlp3 e]), Some [Np.abs d]).
Proof.
  intros Hx He. unfold ProfileLikelihood.likelihood_der1_eta.
  eval_lists. rewrite Hx. cbn [set_distance_scale tail_of tl map].
  eval_lists.
  rewrite inv_1x1 by (apply gram3_nonzero; exact He).
  eval_lists. do 4 f_equal. unfold dlp3, zMz3, zM2z3. simpl INR.
  field. repeat split; try lra; try nra.
Qed.

Lemma likelihood_der1_distance_scale_example s :
  exists g,
    ProfileLikelihood.likelihood_der1_distance_scale z3 X3 cov3
      (Array [Np.Fin 0; Np.Fin 1]) s
    = (Ok g, Some (map Np.abs [Np.Fin 1])).
Proof.
  eexists.
  unfold ProfileLikelihood.likelihood_der1_distance_scale.
  cbn [ProfileLikelihood.get_log_eta ProfileLikelihood.slice_from_1 tl
       diag_cov mixed_cor].
  unfold bind at 1. cbn [lift]. unfold bind at 1. cbn [lift].
  unfold bind at 1. cbn [set_distance_scale].
  cbn [Np.pow10]. rewrite Rpower_O by lra.
  unfold bind at 1. rewrite find_optimal_sigma_sigma0_example by lra.
  unfold bind at 1. cbn [get_distance_scale].
  rewrite sqrt_1.
  set (sg := sqrt (zMz3 1 / 2)).
  assert (Hsg : 0 < sg).
  { apply sqrt_lt_R0. pose proof (zMz3_pos 1). lra. }
  cbv [cov_solve cov_get_matrix diag_cov cov_diag real_part k3 map
       scale_rows X3 diag_matrix diag_matrix_from length seq Nat.eqb
       matmul transpose col nth dot pow].
  unfold bind at 1.
  rewrite inv_1x1.
  2:{ match goal with |- context [1 / ?d] =>
        assert (0 < / d) by (apply Rinv_0_lt_compat; nra) end.
      unfold Rdiv. lra. }
  cbn [lift]. unfold bind at 1.
  unfold inv at 1. cbn [is_square forallb length Nat.eqb negb andb].
  rewrite det_diag3.
  rewrite Reqb_false.
  2:{ repeat apply Rmult_integral_contrapositive_currified; nra. }
  cbv [for_range bind lift ret setitem nth_error Nat.eqb negb
       length Nat.ltb Nat.leb firstn skipn app repeat].
  reflexivity.
Qed.

Lemma likelihood_jacobian_example_pair :
  exists j,
    ProfileLikelihood.likelihood_jacobian z3 X3 cov3 false
      (Array [Np.Fin 0; Np.Fin 1]) None
    = (Ok j, Some (map Np.abs [Np.Fin 1])).
Proof.
  unfold ProfileLikelihood.likelihood_jacobian.
  cbn [diag_cov mixed_cor]. unfold bind at 1.
  rewrite (likelihood_der1_eta_example_pair _ _ 1)
    by (try (rewrite to_eta_Fin, Rpower_O by lra; reflexivity); lra).
  cbn [size length Nat.ltb Nat.leb]. unfold bind at 1. unfold bind at 1.
  destruct (likelihood_der1_distance_scale_example
              (Some [Np.abs (Np.Fin 1)])) as [g Hg].
  change (diag_cov k3) with cov3. rewrite Hg.
  unfold ret. eexists. reflexivity.
Qed.

Lemma likelihood_jacobian_length_witness :
  exists j,
    ProfileLikelihood.likelihood_jacobian z3 X3 cov3 false
      (Array [Np.Fin 0; Np.Fin 1]) None
    = (Ok j, Some (map Np.abs [Np.Fin 1]))
    /\ length j = length [Np.Fin 0; Np.Fin 1].
Proof.
  destruct likelihood_jacobian_example_pair as [j Hj].
  exists j. split; [exact Hj | ].
  exact (likelihood_jacobian_length z3 X3 cov3 false
           [Np.Fin 0; Np.Fin 1] None j _ Hj).
Defined.

Lemma likelihood_der2_mixed_one z X cov x d s m s' :
  ProfileLikelihood.likelihood_der2_mixed z X cov (Array [x; d]) s
  = (Ok m, s') ->
  exists v, m = [[v]].
Proof.
  unfold ProfileLikelihood.likelihood_der2_mixed. unfold bind at 1.
  destruct (ProfileLikelihood.likelihood_der2_mixed_setup z X cov
              (Array [x; d]) s) as [[e | x0] s1] eqn:E; [ | absurd_case].
  rewrite (likelihood_der2_mixed_setup_size _ _ _ _ _ _ _ E).
  cbn [tl length for_range repeat]. unfold bind at 1.
  unfold ProfileLikelihood.likelihood_der2_mixed_step at 1.
  cbn [setitem_row nth_error lift firstn skipn app map ret].
  intros H. injection H as <- _. eauto.
Qed.

Lemma symmetric_one H : symmetric 1 H -> exists c, H = [[c]].
Proof.
  intros (HL & HR & _).
  destruct H as [ | r [ | r' H]]; try discriminate.
  apply Forall_inv in HR.
  destruct r as [ | c [ | c' r]]; try discriminate. eauto.
Qed.

(** X13: with exactly one length-scale, whatever [likelihood_hessian]
    returns is a symmetric two-by-two array: the two off-diagonal entries
    are the same mixed derivative. *)
Theorem likelihood_hessian_one_length_scale z X cov sign_switch x d s H s' :
  ProfileLikelihood.likelihood_hessian z X cov sign_switch
    (Array [x; d]) s = (Ok H, s') ->
  exists h v c, H = [[h; v]; [v; c]].
Proof.
  unfold ProfileLikelihood.likelihood_hessian. unfold bind at 1.
  destruct (ProfileLikelihood.likelihood_der2_eta z X (mixed_cor cov)
              (Array [x; d]) s) as [[v2 | e] s1] eqn:E1; [ | absurd_case].
  destruct (likelihood_der2_eta_shape _ _ _ _ _ _ _ E1) as [h ->].
  cbn [isscalar size length Nat.ltb Nat.leb ProfileLikelihood.atleast_2d
       of_reals map].
  unfold bind at 1. unfold bind at 1.
  destruct (ProfileLikelihood.likelihood_der2_distance_scale z X cov
              (Array [x; d]) s1) as [[D | e] s2] eqn:E2; [ | absurd_case].
  apply der2_distance_scale_loops_symmetric in E2.
  apply symmetric_one in E2 as [c ->].
  unfold bind at 1.
  destruct (ProfileLikelihood.likelihood_der2_mixed z X cov
              (Array [x; d]) s2) as [[m | e] s3] eqn:E3; [ | absurd_case].
  apply likelihood_der2_mixed_one in E3 as [v ->].
  cbn [ret block hstack ftranspose of_reals map seq length nth app].
  intros HH. injection HH as <- _.
  destruct sign_switch; cbn [map]; eauto.
Qed.

Lemma likelihood_der2_eta_example_pair x d e s :
  ProfileLikelihood.to_eta x = Np.Fin e -> 0 <= e ->
  ProfileLikelihood.likelihood_der2_eta z3 X3 mc3 (Array [x; d]) s
  = (Ok (VArray2 [[d2lp3 e]]), Some [Np.abs d]).
Proof.
  intros Hx He. unfold ProfileLikelihood.likelihood_der2_eta.
  eval_lists. rewrite Hx. cbn [set_distance_scale tail_of tl map].
  eval_lists.
  rewrite inv_1x1 by (apply gram3_nonzero; exact He).
  eval_lists. do 5 f_equal. unfold d2lp3, zMz3, zM2z3, zM3z3. simpl INR.
  field. repeat split; try lra; try nra.
Qed.

Lemma likelihood_der2_mixed_setup_example_from ds s :
  exists e,
    ProfileLikelihood.likelihood_der2_mixed_setup z3 X3 cov3
      (Array (Np.Fin 0 :: ds)) s
    = (Ok e, Some (map Np.abs ds)).
Proof.
  eexists.
  unfold ProfileLikelihood.likelihood_der2_mixed_setup.
  cbn [ProfileLikelihood.get_log_eta ProfileLikelihood.slice_from_1 tl
       diag_cov mixed_cor].
  unfold bind at 1. cbn [lift]. unfold bind at 1. cbn [lift].
  unfold bind at 1. cbn [set_distance_scale].
  cbn [Np.pow10]. rewrite Rpower_O by lra.
  unfold bind at 1. rewrite find_optimal_sigma_sigma0_example by lra.
  unfold bind at 1. cbn [get_distance_scale].
  rewrite sqrt_1.
  set (sg := sqrt (zMz3 1 / 2)).
  assert (Hsg : 0 < sg).
  { apply sqrt_lt_R0. pose proof (zMz3_pos 1). lra. }
  cbv [cov_solve cov_get_matrix diag_cov cov_diag real_part k3
       scale_rows X3 diag_matrix diag_matrix_from seq Nat.eqb
       matmul transpose col nth dot pow].
  cbn [map length].
  unfold bind at 1.
  rewrite inv_1x1.
  2:{ match goal with |- context [1 / ?d] =>
        assert (0 < / d) by (apply Rinv_0_lt_compat; nra) end.
      unfold Rdiv. lra. }
  cbn [lift]. unfold bind at 1.
  unfold inv at 1. cbn [is_square forallb length Nat.eqb negb andb].
  rewrite det_diag3.
  rewrite Reqb_false.
  2:{ repeat apply Rmult_integral_contrapositive_currified; nra. }
  cbn [lift ret]. reflexivity.
Qed.

Lemma likelihood_der2_mixed_example_one s :
  exists m,
    ProfileLikelihood.likelihood_der2_mixed z3 X3 cov3
      (Array [Np.Fin 0; Np.Fin 1]) s
    = (Ok m, Some (map Np.abs [Np.Fin 1])).
Proof.
  destruct (likelihood_der2_mixed_setup_example_from [Np.Fin 1] s)
    as [e He].
  unfold ProfileLikelihood.likelihood_der2_mixed. unfold bind at 1.
  rewrite He.
  rewrite (likelihood_der2_mixed_setup_size _ _ _ _ _ _ _ He).
  cbn [tl length for_range repeat]. unfold bind at 1.
  unfold ProfileLikelihood.likelihood_der2_mixed_step at 1.
  cbn [setitem_row nth_error lift firstn skipn app map ret].
  eexists. reflexivity.
Qed.

Lemma likelihood_hessian_example :
  exists H,
    ProfileLikelihood.likelihood_hessian z3 X3 cov3 false
      (Array [Np.Fin 0; Np.Fin 1]) None
    = (Ok H, Some (map Np.abs [Np.Fin 1])).
Proof.
  unfold ProfileLikelihood.likelihood_hessian.
  cbn [diag_cov mixed_cor]. unfold bind at 1.
  rewrite (likelihood_der2_eta_example_pair _ _ 1)
    by (try (rewrite to_eta_Fin, Rpower_O by lra; reflexivity); lra).
  cbn [size length Nat.ltb Nat.leb]. unfold bind at 1. unfold bind at 1.
  destruct (likelihood_der2_distance_scale_example (Some [Np.abs (Np.Fin 1)]))
    as [D HD].
  change (diag_cov k3) with cov3. rewrite HD.
  unfold bind at 1.
  destruct (likelihood_der2_mixed_example_one (Some (map Np.abs [Np.Fin 1])))
    as [m Hm].
  rewrite Hm. unfold ret. eexists. reflexivity.
Qed.

Lemma likelihood_hessian_one_length_scale_witness :
  exists H,
    ProfileLikelihood.likelihood_hessian z3 X3 cov3 false
      (Array [Np.Fin 0; Np.Fin 1]) None
    = (Ok H, Some (map Np.abs [Np.Fin 1]))
    /\ exists h v c, H = [[h; v]; [v; c]].
Proof.
  destruct likelihood_hessian_example as [H HH].
  exists H. split; [exact HH | ].
  exact (likelihood_hessian_one_length_scale z3 X3 cov3 false _ _ None H _
           HH).
Defined.

(** ** The outcome of the root search, and the eta that is reported *)

Lemma pow10_not_negative x : Np.lt (Np.pow10 x) (Np.Fin 0) = false.
Proof.
  destruct x as [r | | | ]; cbn [Np.pow10 Np.lt]; try reflexivity.
  - apply Rltb_false. apply Rlt_le, Rpower_10_pos.
  - apply Rltb_false. lra.
Qed.

Lemma to_eta_not_negative x :
  Np.lt (ProfileLikelihood.to_eta x) (Np.Fin 0) = false.
Proof.
  unfold ProfileLikelihood.to_eta. destruct (Np.isneginf x).
  - cbn [Np.lt]. apply Rltb_false. lra.
  - apply pow10_not_negative.
Qed.

Lemma degenerate_eta_values l r d e :
  ProfileLikelihood.degenerate_eta l r d = Some e ->
  e = Np.Fin 0 \/ e = Np.PInf.
Proof.
  unfold ProfileLikelihood.degenerate_eta.
  destruct (Np.Rltb 0 l && Np.Rltb 0 r).
  - destruct (Np.Rltb 0 d); intros H; injection H as <-; auto.
  - destruct (Np.Rltb l 0 && Np.Rltb r 0); [ | discriminate].
    destruct (Np.Rltb d 0); intros H; injection H as <-; auto.
Qed.

Lemma find_optimal_sigma_sigma0_at_zero z X mc s sg sg0 s' :
  ProfileLikelihood.find_optimal_sigma_sigma0 z X mc (Np.Fin 0) s
  = (Ok (sg, sg0), s') -> sg0 = Np.Fin 0.
Proof.
  unfold ProfileLikelihood.find_optimal_sigma_sigma0.
  cbn [Np.abs Np.lt].
  unfold ProfileLikelihood.max_eta, ProfileLikelihood.min_eta.
  rewrite (Rltb_false 1e16) by (rewrite Rabs_R0; lra).
  rewrite Rltb_true by (rewrite Rabs_R0; lra).
  unfold bind, ret.
  destruct (ProfileLikelihood.find_optimal_sigma z X mc (Np.Fin 0) s)
    as [[v | x] s1]; [ | absurd_case].
  intros H. injection H as _ <- _. reflexivity.
Qed.

Lemma find_optimal_sigma_sigma0_at_inf z X mc s sg sg0 s' :
  ProfileLikelihood.find_optimal_sigma_sigma0 z X mc Np.PInf s
  = (Ok (sg, sg0), s') -> sg = Np.Fin 0.
Proof.
  unfold ProfileLikelihood.find_optimal_sigma_sigma0.
  cbn [Np.abs Np.lt Np.isinf]. unfold bind, ret.
  destruct (ProfileLikelihood.find_optimal_sigma0 z X s)
    as [[v | x] s1]; [ | absurd_case].
  intros H. injection H as <- _ _. reflexivity.
Qed.

(** X14: when the bracket search reports no sign change, whatever
    [find_likelihood_der1_zeros] returns is one of the two degenerate
    optima, found without iterating: either [eta = 0] with [sigma0 = 0], or
    [eta = inf] with [sigma = 0]. *)
Theorem find_likelihood_der1_zeros_degenerate rf z X mc interval tol
    maxiter trials s bracket values s1 res s' :
  find_interval_with_sign_change rf
    (fun x => v <- ProfileLikelihood.likelihood_der1_eta z X mc (Scalar x) ;;
              ret (item v))
    (Np.log10 (fst interval), Np.log10 (snd interval)) trials s
  = (Ok (false, bracket, values), s1) ->
  ProfileLikelihood.find_likelihood_der1_zeros rf z X mc interval tol
    maxiter trials s = (Ok res, s') ->
  iter res = O
  /\ ((eta res = Np.Fin 0 /\ sigma0 res = Np.Fin 0)
      \/ (eta res = Np.PInf /\ sigma res = Np.Fin 0)).
Proof.
  intros Hfind. unfold ProfileLikelihood.find_likelihood_der1_zeros.
  unfold bind at 1. rewrite Hfind. cbn [fst snd]. unfold bind at 1.
  destruct (ProfileLikelihood.likelihood_der2_eta z X mc
              (Scalar (Np.Fin 0)) s1) as [[d2 | x] s2]; [ | absurd_case].
  destruct (ProfileLikelihood.degenerate_eta (fst values) (snd values)
              (item d2)) as [e0 | ] eqn:Ed;
    [ | unfold raise; absurd_case].
  destruct (degenerate_eta_values _ _ _ _ Ed) as [-> | ->];
    cbn [Np.eqb Np.isinf orb negb];
    rewrite ?Reqb_true by reflexivity; cbn [orb negb]; unfold bind, ret.
  - destruct (ProfileLikelihood.find_optimal_sigma_sigma0 z X mc
                (Np.Fin 0) s2) as [[[sg sg0] | x] s3] eqn:Es;
      [ | absurd_case].
    intros H. injection H as <- _.
    apply find_optimal_sigma_sigma0_at_zero in Es. subst sg0.
    cbn. auto.
  - destruct (ProfileLikelihood.find_optimal_sigma_sigma0 z X mc
                Np.PInf s2) as [[[sg sg0] | x] s3] eqn:Es;
      [ | absurd_case].
    intros H. injection H as <- _.
    apply find_optimal_sigma_sigma0_at_inf in Es. subst sg.
    cbn. auto.
Qed.

Lemma endpoint_bracketing_example trials s :
  find_interval_with_sign_change endpoint_bracketing
    (fun x => v <- ProfileLikelihood.likelihood_der1_eta z3 X3 mc3
                     (Scalar x) ;;
              ret (item v))
    (Np.log10 (fst (Np.Fin 1, Np.Fin 10)),
     Np.log10 (snd (Np.Fin 1, Np.Fin 10))) trials s
  = (Ok (false, (Np.log10 (Np.Fin 1), Np.log10 (Np.Fin 10)),
         (- 9 / 140, - 45 / 23452)), s).
Proof.
  cbn [endpoint_bracketing find_interval_with_sign_change fst snd].
  unfold bind.
  rewrite (likelihood_der1_eta_example _ 1) by (try apply to_eta_log10; lra).
  cbn [ret item].
  rewrite (likelihood_der1_eta_example _ 10) by (try apply to_eta_log10; lra).
  cbn [ret item fst snd]. rewrite dlp3_1, dlp3_10.
  rewrite (Rltb_false (_ * _) 0) by lra. reflexivity.
Qed.

(** On the example, searched over [eta in [1, 10]], the derivative is
    negative at both ends and the function returns the degenerate optimum
    [eta = inf]. *)
Lemma find_likelihood_der1_zeros_example tol maxiter trials :
  ProfileLikelihood.find_likelihood_der1_zeros endpoint_bracketing
    z3 X3 mc3 (Np.Fin 1, Np.Fin 10) tol maxiter trials None
  = (Ok {| sigma := Np.Fin 0;
           sigma0 := Np.Fin (ols_residual_estimator z3 X3);
           eta := Np.PInf; distance_scale := None;
           max_likelihood := None; iter := O |}, None).
Proof.
  unfold ProfileLikelihood.find_likelihood_der1_zeros.
  unfold bind at 1. rewrite endpoint_bracketing_example.
  cbn [fst snd]. unfold bind at 1.
  rewrite (likelihood_der2_eta_example _ 1)
    by (try (rewrite to_eta_Fin, Rpower_O by lra; reflexivity); lra).
  cbn [item]. rewrite d2lp3_1.
  rewrite degenerate_eta_both_negative by lra.
  rewrite (Rltb_false (639 / 9800) 0) by lra.
  cbn [Np.eqb Np.isinf orb negb]. unfold bind, ret.
  unfold ProfileLikelihood.find_optimal_sigma_sigma0.
  cbn [Np.abs Np.lt Np.isinf].
  unfold ProfileLikelihood.find_optimal_sigma0, bind, lift, ret.
  rewrite inv_gram by (reflexivity || exact gram_X3). reflexivity.
Qed.

Lemma find_likelihood_der1_zeros_degenerate_witness :
  exists res,
    find_interval_with_sign_change endpoint_bracketing
      (fun x => v <- ProfileLikelihood.likelihood_der1_eta z3 X3 mc3
                       (Scalar x) ;;
                ret (item v))
      (Np.log10 (fst (Np.Fin 1, Np.Fin 10)),
       Np.log10 (snd (Np.Fin 1, Np.Fin 10))) 0 None
    = (Ok (false, (Np.log10 (Np.Fin 1), Np.log10 (Np.Fin 10)),
           (- 9 / 140, - 45 / 23452)), None)
    /\ ProfileLikelihood.find_likelihood_der1_zeros endpoint_bracketing
         z3 X3 mc3 (Np.Fin 1, Np.Fin 10) 1e-6 100 0 None = (Ok res, None)
    /\ iter res = O
    /\ ((eta res = Np.Fin 0 /\ sigma0 res = Np.Fin 0)
        \/ (eta res = Np.PInf /\ sigma res = Np.Fin 0)).
Proof.
  eexists.
  split; [apply endpoint_bracketing_example | ].
  split; [apply find_likelihood_der1_zeros_example | ].
  exact (find_likelihood_der1_zeros_degenerate endpoint_bracketing
           z3 X3 mc3 (Np.Fin 1, Np.Fin 10) 1e-6 100 0 None _ _ None _ None
           (endpoint_bracketing_example 0 None)
           (find_likelihood_der1_zeros_example 1e-6 100 0)).
Defined.

Lemma find_likelihood_der1_zeros_not_negative rf z X mc interval tol
    maxiter trials s res s' :
  ProfileLikelihood.find_likelihood_der1_zeros rf z X mc interval tol
    maxiter trials s = (Ok res, s') ->
  Np.lt (eta res) (Np.Fin 0) = false.
Proof.
  unfold ProfileLikelihood.find_likelihood_der1_zeros. unfold bind at 1.
  destruct (find_interval_with_sign_change rf _ _ trials s)
    as [[[[found bracket] values] | x] s1]; [ | absurd_case].
  destruct found.
  - unfold bind at 1.
    destruct (chandrupatla_method rf _ bracket values tol tol maxiter s1)
      as [[[root it] | x] s2]; [ | absurd_case].
    unfold bind, ret. cbn [fst snd].
    destruct (ProfileLikelihood.find_optimal_sigma_sigma0 z X mc
                (Np.pow10 root) s2) as [[ss | x] s3]; [ | absurd_case].
    intros H. injection H as <- _. cbn [eta]. apply pow10_not_negative.
  - unfold bind at 1.
    destruct (ProfileLikelihood.likelihood_der2_eta z X mc
                (Scalar (Np.Fin 0)) s1) as [[d2 | x] s2]; [ | absurd_case].
    destruct (ProfileLikelihood.degenerate_eta (fst values) (snd values)
                (item d2)) as [e0 | ] eqn:Ed; [ | absurd_case].
    destruct (degenerate_eta_values _ _ _ _ Ed) as [-> | ->];
      cbn [Np.eqb Np.isinf orb negb];
      rewrite ?Reqb_true by reflexivity; cbn [orb negb]; unfold bind, ret.
    + destruct (ProfileLikelihood.find_optimal_sigma_sigma0 z X mc
                  (Np.Fin 0) s2) as [[ss | x] s3]; [ | absurd_case].
      intros H. injection H as <- _. cbn [eta Np.lt].
      apply Rltb_false. lra.
    + destruct (ProfileLikelihood.find_optimal_sigma_sigma0 z X mc
                  Np.PInf s2) as [[ss | x] s3]; [ | absurd_case].
      intros H. injection H as <- _. reflexivity.
Qed.

(** X15: whichever method is used, and whatever the optimizer and the root
    finder do, the [eta] that [maximize_likelihood] reports is never
    negative. *)
Theorem maximize_likelihood_eta_not_negative sp rf z X cov tol guess
    method s r s' :
  ProfileLikelihood.maximize_likelihood sp rf z X cov tol guess method s
  = (Ok r, s') ->
  Np.lt (eta r) (Np.Fin 0) = false.
Proof.
  unfold ProfileLikelihood.maximize_likelihood.
  destruct (String.eqb method "chandrupatla").
  - unfold bind at 1.
    match goal with
    | |- context [match ?m s with (_, _) => _ end] =>
        destruct (m s) as [[[] | x] s1]; [ | absurd_case]
    end.
    unfold bind at 1.
    destruct (lift _ s1) as [[g | x] s2]; [ | absurd_case].
    unfold bind at 1.
    destruct (ProfileLikelihood.find_likelihood_der1_zeros rf z X
                (mixed_cor cov) (ProfileLikelihood.chandrupatla_interval g)
                1e-6 100 3 s2) as [[res | x] s3] eqn:E; [ | absurd_case].
    apply find_likelihood_der1_zeros_not_negative in E.
    unfold bind, ret.
    destruct (ProfileLikelihood.likelihood z X (mixed_cor cov) false
                (Scalar (eta res)) s3) as [[lp | x] s4]; [ | absurd_case].
    cbn [get_distance_scale]. intros H. injection H as <- _. exact E.
  - unfold bind at 1.
    destruct (minimize sp _ guess method tol _ _ s)
      as [[res | x] s1]; [ | absurd_case].
    unfold bind at 1.
    destruct (lift _ s1) as [[x | x] s2]; [ | absurd_case].
    unfold bind at 1.
    destruct (ProfileLikelihood.find_optimal_sigma_sigma0 z X (mixed_cor cov)
                (ProfileLikelihood.to_eta x) s2) as [[ss | x0] s3];
      [ | absurd_case].
    unfold bind, ret.
    match goal with
    | |- context [match ?m s3 with (_, _) => _ end] =>
        destruct (m s3) as [[ds | x0] s4]; [ | absurd_case]
    end.
    intros H. injection H as <- _. cbn [eta]. apply to_eta_not_negative.
Qed.

Lemma maximize_likelihood_example rf s :
  ProfileLikelihood.maximize_likelihood minimize_at_guess rf z3 X3 cov3 1e-3
    [Np.Fin 1] "Nelder-Mead" s
  = (Ok {| sigma := Np.Fin (sqrt (zMz3 10 / 2));
           sigma0 := Np.Fin (sqrt 10 * sqrt (zMz3 10 / 2));
           eta := Np.Fin 10; distance_scale := s;
           max_likelihood := Some (- - lp3 10); iter := O |}, s).
Proof.
  unfold ProfileLikelihood.maximize_likelihood.
  cbn [String.eqb Ascii.eqb Bool.eqb minimize_at_guess minimize].
  unfold bind at 1. unfold bind at 1.
  cbn [diag_cov mixed_cor].
  rewrite (likelihood_example_array _ _ 10) by (try apply to_eta_1; lra).
  cbn [ret res_x lift]. unfold bind at 1. cbn [lift].
  rewrite to_eta_1. unfold bind at 1.
  rewrite find_optimal_sigma_sigma0_example by lra.
  unfold bind. cbn [length Nat.ltb Nat.leb get_distance_scale ret eta
                    ProfileLikelihood.set_distance_scale_from isscalar size
                    negb andb snd fst res_fun res_nit].
  reflexivity.
Qed.

Lemma maximize_likelihood_eta_not_negative_witness :
  exists r,
    ProfileLikelihood.maximize_likelihood minimize_at_guess
      endpoint_bracketing z3 X3 cov3 1e-3 [Np.Fin 1] "Nelder-Mead" None
    = (Ok r, None)
    /\ Np.lt (eta r) (Np.Fin 0) = false.
Proof.
  eexists. split; [apply maximize_likelihood_example | ].
  exact (maximize_likelihood_eta_not_negative _ _ _ _ _ _ _ _ _ _ _
           (maximize_likelihood_example endpoint_bracketing None)).
Defined.

(** X16: in the Chandrupatla branch the length-scale entries of the guess
    only initialize an operator whose length-scale is unset; a length-scale
    that is already set is never overwritten, and an empty guess raises
    [IndexError] before any search. *)
Theorem maximize_likelihood_chandrupatla_guess sp rf z X cov tol g d rest
    current :
  ProfileLikelihood.maximize_likelihood sp rf z X cov tol (g :: d :: rest)
    "chandrupatla" (Some current)
  = ProfileLikelihood.maximize_likelihood sp rf z X cov tol [g]
      "chandrupatla" (Some current)
  /\ ProfileLikelihood.maximize_likelihood sp rf z X cov tol (g :: d :: rest)
       "chandrupatla" None
     = ProfileLikelihood.maximize_likelihood sp rf z X cov tol [g]
         "chandrupatla" (Some (d :: rest))
  /\ forall s,
       ProfileLikelihood.maximize_likelihood sp rf z X cov tol []
         "chandrupatla" s = (Raise IndexError, s).
Proof. repeat split. Qed.

(** ** The doubly profiled likelihood *)

(** X17: the inner solve does not depend on [sign_switch], so the doubly
    profiled likelihood and its Jacobian with [sign_switch = True] are the
    negations of those with [sign_switch = False]. *)
Theorem double_likelihood_sign_switch sp rf z X cov log_eta_guess
    hyperparam s :
  DoubleProfileLikelihood.likelihood sp rf z X cov true log_eta_guess
    hyperparam s
  = (result_map Ropp
       (fst (DoubleProfileLikelihood.likelihood sp rf z X cov false
               log_eta_guess hyperparam s)),
     snd (DoubleProfileLikelihood.likelihood sp rf z X cov false
            log_eta_guess hyperparam s))
  /\ DoubleProfileLikelihood.likelihood_jacobian sp rf z X cov true
       log_eta_guess hyperparam s
     = (result_map (map Ropp)
          (fst (DoubleProfileLikelihood.likelihood_jacobian sp rf z X cov
                  false log_eta_guess hyperparam s)),
        snd (DoubleProfileLikelihood.likelihood_jacobian sp rf z X cov
               false log_eta_guess hyperparam s)).
Proof.
  split.
  - unfold DoubleProfileLikelihood.likelihood, ProfileLikelihood.likelihood,
      bind.
    cbn [set_distance_scale].
    repeat run_step; try reflexivity.
    all: destruct (Np.le _ _); repeat run_step; reflexivity.
  - unfold DoubleProfileLikelihood.likelihood_jacobian, bind, ret.
    cbn [set_distance_scale].
    repeat run_step; reflexivity.
Qed.

(** X18: the combined vector carries [numpy.log(eta)], and [likelihood]
    decodes [10 ** log_eta]: for a non-negative [eta] the decoded value is
    [eta] again exactly when [eta] is [0], [1] or [inf]. *)
Theorem hyperparam_full_round_trip eta0 ds :
  Np.le (Np.Fin 0) eta0 = true ->
  (exists x,
      ProfileLikelihood.get_log_eta
        (DoubleProfileLikelihood.hyperparam_full eta0 ds) = Ok x
      /\ ProfileLikelihood.to_eta x = eta0)
  <-> (eta0 = Np.Fin 0 \/ eta0 = Np.Fin 1 \/ eta0 = Np.PInf).
Proof.
  intros Hpos. unfold DoubleProfileLikelihood.hyperparam_full.
  cbn [ProfileLikelihood.get_log_eta].
  destruct eta0 as [e | | | ]; try discriminate.
  - cbn [Np.le] in Hpos. unfold Np.Rleb in Hpos.
    destruct (Rle_dec 0 e) as [He | ]; [ | discriminate].
    destruct (Req_dec_T e 0) as [-> | Hne].
    + cbn [Np.log]. rewrite Rltb_false by lra.
      rewrite Reqb_true by reflexivity.
      split; [auto | ]. intros _. eexists. split; reflexivity.
    + assert (He' : 0 < e) by lra.
      pose proof (to_eta_log_fixed_point e He') as Hfix. split.
      * intros (x & Hx & Hto). injection Hx as <-.
        right; left. f_equal. apply Hfix. exact Hto.
      * intros [H | [H | H]]; try discriminate.
        -- injection H as H. contradiction.
        -- injection H as ->. eexists. split; [reflexivity | ].
           apply Hfix. reflexivity.
  - split; [auto | ]. intros _. eexists. split; reflexivity.
Qed.

Lemma hyperparam_full_round_trip_witness :
  Np.le (Np.Fin 0) (Np.Fin 10) = true
  /\ ~ exists x,
         ProfileLikelihood.get_log_eta
           (DoubleProfileLikelihood.hyperparam_full (Np.Fin 10) []) = Ok x
         /\ ProfileLikelihood.to_eta x = Np.Fin 10.
Proof.
  assert (H : Np.le (Np.Fin 0) (Np.Fin 10) = true)
    by (apply Rleb_true; lra).
  split; [exact H | ].
  intros Hx.
  apply (proj1 (hyperparam_full_round_trip (Np.Fin 10) [] H)) in Hx.
  destruct Hx as [Hx | [Hx | Hx]]; try discriminate; injection Hx as Hx; lra.
Defined.

(** ** The bounds on the first derivative *)

(** X19: given the smallest and the largest eigenvalue of [K] in ascending
    order, [eta] above minus the smallest eigenvalue, and at least as many
    observations as regressors, [compute_bounds_der1_eta] returns an upper
    bound [u] and the lower bound [-u] with
    [0 <= u <= 0.5 * (n - m) / (eta + eigenvalue_smallest)]. *)
Theorem compute_bounds_der1_eta_sign eigh X K eta0 lo hi rest_lo rest_hi :
  eigh K 0%Z 0%Z = Ok (lo :: rest_lo) ->
  eigh K (Z.of_nat (fst (shape X)) - 1)%Z (Z.of_nat (fst (shape X)) - 1)%Z
  = Ok (hi :: rest_hi) ->
  lo <= hi -> 0 < eta0 + lo -> 0 <= ProfileLikelihood.dof X ->
  exists u,
    ProfileLikelihood.compute_bounds_der1_eta eigh X K eta0 = Ok (u, - u)
    /\ 0 <= u <= 0.5 * ProfileLikelihood.dof X / (eta0 + lo).
Proof.
  intros Hlo Hhi Hord Hpos Hdof.
  unfold ProfileLikelihood.compute_bounds_der1_eta. rewrite Hlo, Hhi.
  eexists. split; [reflexivity | ].
  assert (H1 : 0 < / (eta0 + lo)) by (apply Rinv_0_lt_compat; lra).
  assert (H2 : 0 < / (eta0 + hi)) by (apply Rinv_0_lt_compat; lra).
  assert (H3 : / (eta0 + hi) <= / (eta0 + lo))
    by (apply Rinv_le_contravar; lra).
  unfold Rdiv. rewrite !Rmult_1_l.
  set (n_m := ProfileLikelihood.dof X) in *.
  set (a := / (eta0 + lo)) in *. set (b := / (eta0 + hi)) in *.
  split; nra.
Qed.

Lemma compute_bounds_der1_eta_sign_witness :
  exists u,
    ProfileLikelihood.compute_bounds_der1_eta
      (fun _ i _ => Ok [if Z.eqb i 0 then / 4 else 1]) X3
      (diag_matrix k3) 1 = Ok (u, - u)
    /\ 0 <= u <= 0.5 * ProfileLikelihood.dof X3 / (1 + / 4).
Proof.
  apply (compute_bounds_der1_eta_sign
           (fun _ i _ => Ok [if Z.eqb i 0 then / 4 else 1]) X3
           (diag_matrix k3) 1 (/ 4) 1 [] []).
  - reflexivity.
  - reflexivity.
  - lra.
  - lra.
  - unfold ProfileLikelihood.dof. cbn [X3 shape length fst snd INR]. lra.
Defined.

(** ** Changing the unit of the observations *)

Lemma dot_vscale_l c u v : dot (vscale c u) v = c * dot u v.
Proof.
  unfold vscale. revert v. induction u as [ | x u IH]; intros [ | y v];
    cbn [map dot]; try ring.
  rewrite IH. ring.
Qed.

Lemma dot_vscale_r c u v : dot u (vscale c v) = c * dot u v.
Proof.
  unfold vscale. revert v. induction u as [ | x u IH]; intros [ | y v];
    cbn [map dot]; try ring.
  rewrite IH. ring.
Qed.

Lemma vsub_vscale c u v :
  vsub (vscale c u) (vscale c v) = vscale c (vsub u v).
Proof.
  unfold vscale. revert v. induction u as [ | x u IH]; intros [ | y v];
    cbn [map vsub]; try reflexivity.
  rewrite IH. f_equal. ring.
Qed.

Lemma matvec_vscale A c v : matvec A (vscale c v) = vscale c (matvec A v).
Proof.
  unfold matvec, vscale at 2. rewrite map_map.
  apply map_ext. intros row. apply dot_vscale_r.
Qed.

Lemma sqrt_scaled c t d : sqrt (c * (c * t) / d) = Rabs c * sqrt (t / d).
Proof.
  replace (c * (c * t) / d) with (Rsqr c * (t / d))
    by (unfold Rsqr, Rdiv; ring).
  rewrite sqrt_mult_alt by apply Rle_0_sqr.
  now rewrite sqrt_Rsqr_abs.
Qed.

Lemma ratio_scaled c a b d :
  c <> 0 -> c * (c * a) / (c * (c * b) / d) = a / (b / d).
Proof.
  intros Hc. unfold Rdiv. rewrite !Rinv_mult.
  assert (H : c * / c = 1) by (field; exact Hc).
  set (ic := / c) in *. set (ib := / b). set (iid := / / d).
  transitivity (a * (ib * iid) * ((c * ic) * (c * ic))); [ring | ].
  rewrite H. ring.
Qed.

(** X20: the least-squares estimator of [sigma0] is absolutely homogeneous
    in the observations: multiplying [z] by [c] multiplies the estimate by
    [|c|] (and raises exactly when the original raises). *)
Theorem find_optimal_sigma0_homogeneous c z X s :
  ProfileLikelihood.find_optimal_sigma0 (vscale c z) X s
  = (result_map (Rmult (Rabs c))
       (fst (ProfileLikelihood.find_optimal_sigma0 z X s)), s).
Proof.
  unfold ProfileLikelihood.find_optimal_sigma0, bind, lift, ret.
  destruct (inv (matmul (transpose X) X)) as [Binv | e]; [ | reflexivity].
  cbn [fst result_map]. do 2 f_equal.
  rewrite !matvec_vscale, vsub_vscale, dot_vscale_l, dot_vscale_r.
  apply sqrt_scaled.
Qed.

(** X21: for an operator whose solve is homogeneous, the same holds for
    the generalized-least-squares estimator of [sigma]. *)
Theorem find_optimal_sigma_homogeneous c z X mc eta0 s :
  homogeneous_solve mc ->
  ProfileLikelihood.find_optimal_sigma (vscale c z) X mc eta0 s
  = (result_map (Rmult (Rabs c))
       (fst (ProfileLikelihood.find_optimal_sigma z X mc eta0 s)), s).
Proof.
  intros Hmc.
  unfold ProfileLikelihood.find_optimal_sigma, bind, lift, ret, solve,
    solve_vec.
  destruct (inv _) as [Binv | e]; [ | reflexivity].
  cbn [fst result_map]. do 2 f_equal.
  rewrite Hmc, !matvec_vscale, vsub_vscale, dot_vscale_l, dot_vscale_r.
  apply sqrt_scaled.
Qed.

Lemma scale_entries_vscale d c v :
  scale_entries d (vscale c v) = vscale c (scale_entries d v).
Proof.
  unfold vscale. revert v. induction d as [ | di d IH]; intros [ | x v];
    cbn [map scale_entries]; try reflexivity.
  rewrite IH. f_equal. unfold Rdiv. ring.
Qed.

Lemma homogeneous_solve_diag k : homogeneous_solve (diag_mixed_cor k).
Proof.
  intros s eta0 c v. cbn [diag_mixed_cor mc_solve_vec].
  destruct eta0; try apply scale_entries_vscale.
  all: unfold vscale; rewrite !map_map; apply map_ext; intros; ring.
Qed.

Lemma find_optimal_sigma_homogeneous_witness :
  homogeneous_solve mc3
  /\ ProfileLikelihood.find_optimal_sigma (vscale 3 z3) X3 mc3 (Np.Fin 1)
       None
     = (Ok (Rabs 3 * sqrt (zMz3 1 / 2)), None).
Proof.
  split; [apply homogeneous_solve_diag | ].
  rewrite (find_optimal_sigma_homogeneous 3 z3 X3 mc3 (Np.Fin 1) None
             (homogeneous_solve_diag k3)).
  rewrite find_optimal_sigma_example by lra. reflexivity.
Defined.

(** X22: for an operator whose solve is homogeneous, the first derivative
    in [eta] does not depend on the unit of the observations: multiplying
    [z] by any [c <> 0] leaves the result of [likelihood_der1_eta]
    unchanged. *)
Theorem likelihood_der1_eta_scale_invariant c z X mc h s :
  homogeneous_solve mc -> c <> 0 ->
  ProfileLikelihood.likelihood_der1_eta (vscale c z) X mc h s
  = ProfileLikelihood.likelihood_der1_eta z X mc h s.
Proof.
  intros Hmc Hc.
  unfold ProfileLikelihood.likelihood_der1_eta, bind, ret, solve, solve_vec,
    traceinv.
  destruct (lift (ProfileLikelihood.get_log_eta h) s) as [[x | e] s0];
    [ | reflexivity].
  destruct (ProfileLikelihood.set_distance_scale_from h s0)
    as [[[] | e] s1]; [ | reflexivity].
  destruct (lift (inv _) s1) as [[Binv | e] s2]; [ | reflexivity].
  rewrite Hmc, !matvec_vscale, vsub_vscale.
  rewrite !dot_vscale_l, !dot_vscale_r.
  rewrite ratio_scaled by exact Hc. reflexivity.
Qed.

Lemma likelihood_der1_eta_scale_invariant_witness :
  homogeneous_solve mc3 /\ 3 <> 0
  /\ ProfileLikelihood.likelihood_der1_eta (vscale 3 z3) X3 mc3
       (Scalar (Np.Fin 0)) None
     = (Ok (VScalar (dlp3 1)), None).
Proof.
  assert (H3 : 3 <> 0) by lra.
  split; [apply homogeneous_solve_diag | split; [exact H3 | ]].
  rewrite (likelihood_der1_eta_scale_invariant 3 z3 X3 mc3
             (Scalar (Np.Fin 0)) None (homogeneous_solve_diag k3) H3).
  apply likelihood_der1_eta_example; [ | lra].
  rewrite to_eta_Fin, Rpower_O by lra. reflexivity.
Defined.
